(** * hono-url-shortening: the route handlers of [src/index.ts]

    A shallow embedding of the URL shortener's five API handlers and of
    [generateShortCode], followed by the properties the specification
    states about them and by further properties read off the code.

    Modelling decisions, all taken from the source:

    - [urlCollection] is the list of its documents in natural (insertion)
      order.  The MongoDB driver calls the handlers make are modelled by
      what the driver documents for them: [insertOne] appends a document,
      [findOne] returns the first document that matches the filter,
      [updateOne] and [deleteOne] act on the first document that matches
      and report [matchedCount] / [deletedCount].  Every driver call
      succeeds.  The [_id] the driver adds is never read by a handler;
      documents are told apart by their position in the list.
    - a handler is an [Async] computation: a function from the collection
      before the request to its completion (a response or a thrown error)
      and the collection after it.  Every [await] is one bind.  The
      application answers a thrown error with status 500.  Requests are
      handled one at a time; interleavings of concurrent requests are
      outside this model.
    - the type annotation [{ url: string }] of a request body is erased at
      run time, so a body is any JSON value, or text that is not JSON, and
      the destructured [url] is any JavaScript value.  A stored [url] is
      whatever value passed the test [!url].
    - strings are well-formed Unicode strings, held as the bytes of their
      UTF-8 form; a character above U+00FF is then a byte sequence that
      starts with a byte of value 196 or more.
    - numbers are IEEE 754 binary64 values ([spec_float] with precision 53
      and maximal exponent 1024), and [*] is the correctly rounded product.
    - [Math.random()] and [new Date()] come from the environment of the
      request: the i-th call of [Math.random] returns [Math_random env i],
      and [new Date()] is the time value [now env] in milliseconds.
    - [c.redirect] is the framework's: it turns the location into a string,
      percent-encodes it with [encodeURI] when it has a character above
      U+00FF, and sets it as the [Location] header, which strips leading
      and trailing HTTP whitespace and throws a [TypeError] when a NUL, CR
      or LF is left.  [String(v)] for a location [v] that is not a string is
      a parameter, [ToString].
    - [clicks] is an integer ([Z]); the store's [$inc] adds to it without
      wrapping. *)

From Stdlib Require Import List String Ascii ZArith Bool Lia SpecFloat.
Import ListNotations.

Local Open Scope string_scope.
Local Open Scope list_scope.
Local Open Scope Z_scope.

(** ** JavaScript values *)

Local Unset Elimination Schemes.

(** The values a parsed JSON text can hold, and [undefined]. *)
Inductive js_value : Type :=
| js_undefined
| js_null
| js_bool (b : bool)
| js_number (x : spec_float)
| js_string (s : string)
| js_array (elements : list js_value)
| js_object (properties : list (string * js_value)).

Local Set Elimination Schemes.

(** An integral number, as [ToIntegerOrInfinity] sees it. *)
Inductive js_integer : Type :=
| js_int (i : Z)
| js_nan
| js_inf (negative : bool).

(** A number given as a natural number, such as [chars.length]. *)
Definition Number_of_nat (n : nat) : spec_float :=
  binary_normalize 53 1024 (Z.of_nat n) 0 false.

(** The operator [*] on numbers. *)
Definition Number_mul (x y : spec_float) : spec_float := SFmul 53 1024 x y.

(** [Math.floor]: the largest integer not above [x]; NaN and the
    infinities are returned as they are. *)
Definition Math_floor (x : spec_float) : js_integer :=
  match x with
  | S754_zero _ => js_int 0
  | S754_finite s m e => js_int (Z.shiftl (cond_Zopp s (Zpos m)) e)
  | S754_nan => js_nan
  | S754_infinity s => js_inf s
  end.

(** [!v]: true for [undefined], [null], [false], the zeros, NaN and the
    empty string. *)
Definition falsy (v : js_value) : bool :=
  match v with
  | js_undefined | js_null => true
  | js_bool b => negb b
  | js_number (S754_zero _) | js_number S754_nan => true
  | js_number _ => false
  | js_string s => String.eqb s ""
  | js_array _ | js_object _ => false
  end.

(** ** Data model *)

(** [interface UrlMapping]; [createdAt] is the [Date]'s time value. *)
Record UrlMapping : Type := {
  shortCode : string;
  url : js_value;
  clicks : Z;
  createdAt : Z
}.

Definition Collection : Type := list UrlMapping.

(** What a request sees of the outside world. *)
Record Env : Type := {
  Math_random : nat -> spec_float;
  now : Z
}.

(** ** generateShortCode *)

Definition chars : string :=
  "abcdefghijklmnopqrstuvwxyzABCDEFGHIJKLMNOPQRSTUVWXYZ0123456789".

(** [String.prototype.charAt]: the one-character string at the position,
    the empty string when the position is out of range; NaN counts as
    position 0. *)
Definition charAt (s : string) (pos : js_integer) : string :=
  match pos with
  | js_int i =>
      if i <? 0 then ""
      else match String.get (Z.to_nat i) s with
           | Some c => String c ""
           | None => ""
           end
  | js_nan =>
      match String.get 0 s with
      | Some c => String c ""
      | None => ""
      end
  | js_inf _ => ""
  end.

(** The body of the [for] loop, run for the [n] remaining values of [i]. *)
Fixpoint generateShortCode_loop (rnd : nat -> spec_float) (i n : nat)
  (result : string) : string :=
  match n with
  | O => result
  | S n' =>
      generateShortCode_loop rnd (S i) n'
        (result ++
         charAt chars
           (Math_floor
              (Number_mul (rnd i) (Number_of_nat (String.length chars)))))%string
  end.

Definition generateShortCode_len (rnd : nat -> spec_float) (length : nat)
  : string :=
  generateShortCode_loop rnd 0 length "".

(** [generateShortCode()] with the default [length = 6]. *)
Definition generateShortCode (rnd : nat -> spec_float) : string :=
  generateShortCode_len rnd 6.

(** ** Completions and the collection *)

Inductive Error : Type :=
| SyntaxError
| TypeError.

(** How an evaluation ends: with a value or with a thrown error. *)
Inductive Completion (A : Type) : Type :=
| normal (a : A)
| throw (e : Error).

Arguments normal {A} a.
Arguments throw {A} e.

Definition Async (A : Type) : Type := Collection -> Completion A * Collection.

Definition ret {A : Type} (a : A) : Async A := fun coll => (normal a, coll).

(** A step that does not touch the collection. *)
Definition lift {A : Type} (x : Completion A) : Async A := fun coll => (x, coll).

Definition bind {A B : Type} (m : Async A) (k : A -> Async B) : Async B :=
  fun coll =>
    match m coll with
    | (normal a, coll') => k a coll'
    | (throw e, coll') => (throw e, coll')
    end.

Notation "x <- m ;; k" := (bind m (fun x => k))
  (at level 61, m at next level, right associativity).

(** The filter [{ shortCode }]. *)
Inductive Filter : Type :=
| by_shortCode (code : string).

Definition matches (f : Filter) (d : UrlMapping) : bool :=
  match f with
  | by_shortCode code => String.eqb (shortCode d) code
  end.

(** The update documents [{ $inc: { clicks: n } }] and [{ $set: { url } }]. *)
Inductive Update : Type :=
| inc_clicks (n : Z)
| set_url (u : js_value).

Definition apply_update (u : Update) (d : UrlMapping) : UrlMapping :=
  match u with
  | inc_clicks n =>
      {| shortCode := shortCode d; url := url d;
         clicks := clicks d + n; createdAt := createdAt d |}
  | set_url u' =>
      {| shortCode := shortCode d; url := u';
         clicks := clicks d; createdAt := createdAt d |}
  end.

Fixpoint update_first (f : Filter) (u : Update) (coll : Collection)
  : Z * Collection :=
  match coll with
  | [] => (0, [])
  | d :: rest =>
      if matches f d then (1, apply_update u d :: rest)
      else let (n, rest') := update_first f u rest in (n, d :: rest')
  end.

Fixpoint delete_first (f : Filter) (coll : Collection) : Z * Collection :=
  match coll with
  | [] => (0, [])
  | d :: rest =>
      if matches f d then (1, rest)
      else let (n, rest') := delete_first f rest in (n, d :: rest')
  end.

Definition insertOne (d : UrlMapping) : Async unit :=
  fun coll => (normal tt, coll ++ [d]).

Definition findOne (f : Filter) : Async (option UrlMapping) :=
  fun coll => (normal (find (matches f) coll), coll).

(** The result is [matchedCount]. *)
Definition updateOne (f : Filter) (u : Update) : Async Z :=
  fun coll => let (n, coll') := update_first f u coll in (normal n, coll').

(** The result is [deletedCount]. *)
Definition deleteOne (f : Filter) : Async Z :=
  fun coll => let (n, coll') := delete_first f coll in (normal n, coll').

(** ** Request bodies *)

(** The text of a request body: JSON for some value, or not JSON at all. *)
Inductive Body : Type :=
| malformed
| parsed (v : js_value).

(** The value of the property [key] of an object parsed from JSON: of
    several members with the same name the last one counts. *)
Definition get_property (key : string) (properties : list (string * js_value))
  : js_value :=
  fold_left (fun found kv => if String.eqb (fst kv) key then snd kv else found)
    properties js_undefined.

(** [await c.req.json()] *)
Definition c_req_json (body : Body) : Completion js_value :=
  match body with
  | malformed => throw SyntaxError
  | parsed v => normal v
  end.

(** [const { url } = v]: [null] and [undefined] cannot be destructured;
    booleans, numbers, strings and arrays have no property [url]. *)
Definition destructure_url (v : js_value) : Completion js_value :=
  match v with
  | js_undefined | js_null => throw TypeError
  | js_object properties => normal (get_property "url" properties)
  | js_bool _ | js_number _ | js_string _ | js_array _ => normal js_undefined
  end.

(** [const { url } = await c.req.json()] *)
Definition body_url (body : Body) : Completion js_value :=
  match c_req_json body with
  | normal v => destructure_url v
  | throw e => throw e
  end.

(** ** Responses *)

Inductive Json : Type :=
| error_json (error : string)
| message_json (message : string)
| shorten_json (shortCode : string) (url : js_value)
| stats_json (shortCode : string) (url : js_value) (clicks createdAt : Z).

Inductive Response : Type :=
| json_response (body : Json) (status : Z)
| text_response (body : string) (status : Z)
| redirect_response (location : string) (status : Z).

Definition status (r : Response) : Z :=
  match r with
  | json_response _ s | text_response _ s | redirect_response _ s => s
  end.

(** [c.json(body)] and [c.text(body)] without a status answer 200. *)
Definition c_json (body : Json) : Response := json_response body 200.
Definition c_text (body : string) : Response := text_response body 200.

Definition dquote : string := String "034"%char "".

Definition url_required : string :=
  ("El campo " ++ dquote ++ "url" ++ dquote ++ " es obligatorio.")%string.
Definition not_found_json : string := "Código corto no encontrado.".
Definition not_found_text : string := "Código corto no encontrado".
Definition url_updated : string := "URL actualizada correctamente.".
Definition url_deleted : string := "URL eliminada correctamente.".

(** What the application answers when a handler throws. *)
Definition internal_server_error : Response :=
  text_response "Internal Server Error" 500.

(** ** The [Location] header of a redirect *)

Fixpoint any_char (p : ascii -> bool) (s : string) : bool :=
  match s with
  | EmptyString => false
  | String c s' => p c || any_char p s'
  end.

(** The test [/[^\x00-\xFF]/] of [c.redirect]: some character of the string
    lies above U+00FF. *)
Definition beyond_latin1 (s : string) : bool :=
  any_char (fun c => (196 <=? nat_of_ascii c)%nat) s.

(** The characters [encodeURI] leaves as they are. *)
Definition uri_unescaped : string :=
  "ABCDEFGHIJKLMNOPQRSTUVWXYZabcdefghijklmnopqrstuvwxyz0123456789;/?:@&=+$,-_.!~*'()#".

Definition hex_digit (n : nat) : ascii :=
  match String.get n "0123456789ABCDEF" with
  | Some c => c
  | None => "0"%char
  end.

Definition percent_encode (c : ascii) : string :=
  String "%" (String (hex_digit (nat_of_ascii c / 16))
                (String (hex_digit (nat_of_ascii c mod 16)) "")).

(** [encodeURI]: every byte of the UTF-8 form of a character that is not
    left as it is becomes a percent sign and two hexadecimal digits. *)
Fixpoint encodeURI (s : string) : string :=
  match s with
  | EmptyString => ""
  | String c s' =>
      ((if any_char (Ascii.eqb c) uri_unescaped then String c ""
        else percent_encode c) ++ encodeURI s')%string
  end.

(** HTTP whitespace: tab, line feed, carriage return and space. *)
Definition http_whitespace (c : ascii) : bool :=
  match nat_of_ascii c with
  | 9%nat | 10%nat | 13%nat | 32%nat => true
  | _ => false
  end.

Fixpoint strip_leading (s : string) : string :=
  match s with
  | EmptyString => ""
  | String c s' => if http_whitespace c then strip_leading s' else s
  end.

Fixpoint strip_trailing (s : string) : string :=
  match s with
  | EmptyString => ""
  | String c s' =>
      match strip_trailing s' with
      | EmptyString => if http_whitespace c then "" else String c ""
      | t => String c t
      end
  end.

(** The normalisation a [Headers] object applies to a value it is given. *)
Definition normalize_header_value (s : string) : string :=
  strip_trailing (strip_leading s).

(** A header value must hold no NUL, line feed or carriage return. *)
Definition forbidden_in_header (c : ascii) : bool :=
  match nat_of_ascii c with
  | 0%nat | 10%nat | 13%nat => true
  | _ => false
  end.

Definition valid_header_value (s : string) : bool :=
  negb (any_char forbidden_in_header s).

(** [headers.set("Location", value)]: the value the header then has. *)
Definition set_Location (value : string) : Completion string :=
  if valid_header_value (normalize_header_value value)
  then normal (normalize_header_value value)
  else throw TypeError.

(** A string that [c.redirect] sends as it is: no character above U+00FF,
    no NUL, CR or LF, no HTTP whitespace at either end. *)
Fixpoint ends_with_whitespace (s : string) : bool :=
  match s with
  | EmptyString => false
  | String c EmptyString => http_whitespace c
  | String _ s' => ends_with_whitespace s'
  end.

Definition starts_with_whitespace (s : string) : bool :=
  match s with
  | EmptyString => false
  | String c _ => http_whitespace c
  end.

Definition plain_location (s : string) : bool :=
  negb (beyond_latin1 s) && valid_header_value s &&
  negb (starts_with_whitespace s) && negb (ends_with_whitespace s).

(** A stand-in for [String(v)] on values that are not strings. *)
Definition sample_ToString (v : js_value) : string := "[object Object]".

(** [String(location)], for a location that may be any value. *)
Definition String_of (ToString : js_value -> string) (location : js_value)
  : string :=
  match location with
  | js_string s => s
  | v => ToString v
  end.

(** What the application answers for a completion: the response, or
    status 500 for a thrown error. *)
Definition respond (x : Completion Response) : Response :=
  match x with
  | normal r => r
  | throw _ => internal_server_error
  end.

(** A handler registered on the application: its response, or the answer
    to the error it throws, and the collection as the handler left it. *)
Definition route (h : Async Response) (coll : Collection)
  : Response * Collection :=
  let (x, coll') := h coll in (respond x, coll').

(** ** Requests *)

Inductive Request : Type :=
| POST_shorten (body : Body)
| GET_shorten (shortCode : string)
| PUT_shorten (shortCode : string) (body : Body)
| DELETE_shorten (shortCode : string)
| GET_stats (shortCode : string)
| GET_root.

(** The [:shortCode] path parameter of a request, when its route has one. *)
Definition path_shortCode (r : Request) : option string :=
  match r with
  | GET_shorten code | PUT_shorten code _ | DELETE_shorten code
  | GET_stats code => Some code
  | POST_shorten _ | GET_root => None
  end.

(** ** Vocabulary of the properties *)

(** [first_match code coll l1 m l2]: [m] is the first document of [coll]
    whose short code is [code]; [l1] are the documents before it and [l2]
    those after it. *)
Definition first_match (code : string) (coll l1 : Collection)
  (m : UrlMapping) (l2 : Collection) : Prop :=
  coll = l1 ++ m :: l2 /\
  (forall d, In d l1 -> shortCode d <> code) /\
  shortCode m = code.

(** No document of [coll] has short code [code]. *)
Definition unknown (code : string) (coll : Collection) : Prop :=
  forall d, In d coll -> shortCode d <> code.

(** Some document of [coll] has short code [code]. *)
Definition known (code : string) (coll : Collection) : Prop :=
  exists d, In d coll /\ shortCode d = code.

(** The number of documents of [coll] with short code [code]. *)
Definition count_code (code : string) (coll : Collection) : nat :=
  List.length (filter (matches (by_shortCode code)) coll).

(** The documents of [coll] whose short code is not [code], in order. *)
Definition others (code : string) (coll : Collection) : Collection :=
  filter (fun d => negb (matches (by_shortCode code) d)) coll.

(** The 62 characters a-z, A-Z and 0-9. *)
Definition alphanumeric (c : ascii) : bool :=
  let n := nat_of_ascii c in
  (((97 <=? n) && (n <=? 122)) || ((65 <=? n) && (n <=? 90)) ||
   ((48 <=? n) && (n <=? 57)))%nat.

Fixpoint all_chars (p : ascii -> bool) (s : string) : bool :=
  match s with
  | EmptyString => true
  | String c s' => p c && all_chars p s'
  end.

(** A character that may stand anywhere in a header value. *)
Definition header_safe (c : ascii) : bool :=
  negb (http_whitespace c) && negb (forbidden_in_header c).

(** How one request may change the list of click counters. *)
Inductive clicks_change : list Z -> list Z -> Prop :=
| clicks_same : forall cs, clicks_change cs cs
| clicks_created : forall cs, clicks_change cs (cs ++ [0])
| clicks_incremented : forall l1 c l2,
    clicks_change (l1 ++ c :: l2) (l1 ++ (c + 1) :: l2)
| clicks_deleted : forall l1 c l2,
    clicks_change (l1 ++ c :: l2) (l1 ++ l2).

(** What [Math.random] promises: a number of positive sign, at least 0 and
    less than 1.  A finite number is given by its mantissa [m] and exponent
    [e] and has the value [m * 2 ^ e]. *)
Definition unit_interval (x : spec_float) : Prop :=
  match x with
  | S754_zero false => True
  | S754_finite false m e =>
      bounded 53 1024 m e = true /\ e < 0 /\ Zpos m < 2 ^ (- e)
  | _ => False
  end.

(** A string made of exactly one alphanumeric character. *)
Definition one_alphanumeric (s : string) : bool :=
  match s with
  | String c EmptyString => alphanumeric c
  | _ => false
  end.

(** The index [Math.floor(Math.random() * chars.length)] that the i-th turn
    of the loop of [generateShortCode] computes. *)
Definition random_index (rnd : nat -> spec_float) (i : nat) : js_integer :=
  Math_floor (Number_mul (rnd i) (Number_of_nat (String.length chars))).

(** An index into [chars]. *)
Definition chars_index (pos : js_integer) : Prop :=
  exists i, pos = js_int i /\ 0 <= i < 62.

(** The characters of [chars] at the positions [ks], one after the other. *)
Fixpoint chars_at (ks : list js_integer) : string :=
  match ks with
  | [] => ""
  | k :: ks' => (charAt chars k ++ chars_at ks')%string
  end.

(** The shape of a generated short code. *)
Definition code_shaped (s : string) : Prop :=
  String.length s = 6%nat /\ all_chars alphanumeric s = true.

(** An environment whose [Math.random] keeps to the interval [0, 1). *)
Definition fair (env : Env) : Prop :=
  forall i, unit_interval (Math_random env i).

(** The fields of a record that say which mapping it is and when it was
    made. *)
Definition identity (d : UrlMapping) : string * Z :=
  (shortCode d, createdAt d).

(** How one request may change the list of identities. *)
Inductive identity_change : list (string * Z) -> list (string * Z) -> Prop :=
| identity_same : forall ids, identity_change ids ids
| identity_created : forall ids code t, identity_change ids (ids ++ [(code, t)])
| identity_deleted : forall l1 id l2,
    identity_change (l1 ++ id :: l2) (l1 ++ l2).

(** The body [{ "url": u }]. *)
Definition url_body (u : js_value) : Body :=
  parsed (js_object [("url", u)]).

(** ** Sample data *)

Definition example_com : UrlMapping :=
  {| shortCode := "Ab3dE9"; url := js_string "https://example.com";
     clicks := 0; createdAt := 1700000000000 |}.

Definition rocq_org : UrlMapping :=
  {| shortCode := "x7Yz01"; url := js_string "https://rocq-prover.org";
     clicks := 5; createdAt := 1700000360000 |}.

Definition two_mappings : Collection := [rocq_org; example_com].

(** A record whose url has characters above U+00FF. *)
Definition unicode_mapping : UrlMapping :=
  {| shortCode := "uNi0de"; url := js_string "https://example.com/日本";
     clicks := 7; createdAt := 1700000900000 |}.

(** The numbers 0.25806451612903225, 0.26, 0.5, 0.9999999999999999 (the
    largest number below 1), 0.1, 0.7346 and 0.031. *)
Definition n_0_258 : spec_float := S754_finite false 4648877034705028 (-54).
Definition n_0_26 : spec_float := S754_finite false 4683743612465316 (-54).
Definition n_0_5 : spec_float := S754_finite false 4503599627370496 (-53).
Definition n_0_999 : spec_float := S754_finite false 9007199254740991 (-53).
Definition n_0_1 : spec_float := S754_finite false 7205759403792794 (-56).
Definition n_0_7346 : spec_float := S754_finite false 6616688572532733 (-53).
Definition n_0_031 : spec_float := S754_finite false 8935141660703064 (-58).

(** A source of random numbers: 0.25806451612903225, 0.5, the largest
    number below 1, 0.1, 0.7346, and 0.031 from then on. *)
Definition sample_env : Env :=
  {| Math_random := fun i =>
       match i with
       | 0%nat => n_0_258
       | 1%nat => n_0_5
       | 2%nat => n_0_999
       | 3%nat => n_0_1
       | 4%nat => n_0_7346
       | _ => n_0_031
       end;
     now := 1700000720000 |}.

(** A source of random numbers that always returns 0. *)
Definition zero_env : Env :=
  {| Math_random := fun _ => S754_zero false; now := 0 |}.

(** A source of random numbers that always returns 0.25806451612903225. *)
Definition low_env : Env :=
  {| Math_random := fun _ => n_0_258; now := 1700001000000 |}.

(** A source of random numbers that always returns 0.26. *)
Definition other_env : Env :=
  {| Math_random := fun _ => n_0_26; now := 1700002000000 |}.

(** A url with a line feed inside. *)
Definition two_lines : string :=
  ("https://example.com/" ++ String "010"%char "Set-Cookie:x=1")%string.

(** ** Handlers *)

Section Runtime.

(** [String(v)] for a value [v] that is not a string. *)
Variable ToString : js_value -> string.

(** [c.redirect(location)] *)
Definition c_redirect (location : js_value) : Completion Response :=
  let locationString := String_of ToString location in
  match set_Location (if beyond_latin1 locationString
                      then encodeURI locationString
                      else locationString) with
  | normal value => normal (redirect_response value 302)
  | throw e => throw e
  end.

(** The answer to a request whose handler ends in [c.redirect(location)]. *)
Definition redirect_answer (location : js_value) : Response :=
  respond (c_redirect location).

(** The handler of [app.post("/api/v1/shorten")] *)
Definition post_shorten_handler (env : Env) (body : Body) : Async Response :=
  url <- lift (body_url body) ;;
  if falsy url then ret (json_response (error_json url_required) 400)
  else
    let shortCode := generateShortCode (Math_random env) in
    let newMapping :=
      {| shortCode := shortCode; url := url;
         clicks := 0; createdAt := now env |} in
    _ <- insertOne newMapping ;;
    ret (c_json (shorten_json shortCode url)).

(** The handler of [app.get("/api/v1/shorten/:shortCode")] *)
Definition get_shorten_handler (shortCode : string) : Async Response :=
  mapping <- findOne (by_shortCode shortCode) ;;
  match mapping with
  | None => ret (text_response not_found_text 404)
  | Some mapping =>
      _ <- updateOne (by_shortCode shortCode) (inc_clicks 1) ;;
      lift (c_redirect (url mapping))
  end.

(** The handler of [app.put("/api/v1/shorten/:shortCode")] *)
Definition put_shorten_handler (shortCode : string) (body : Body)
  : Async Response :=
  url <- lift (body_url body) ;;
  if falsy url then ret (json_response (error_json url_required) 400)
  else
    matchedCount <- updateOne (by_shortCode shortCode) (set_url url) ;;
    if matchedCount =? 0
    then ret (json_response (error_json not_found_json) 404)
    else ret (c_json (message_json url_updated)).

(** The handler of [app.delete("/api/v1/shorten/:shortCode")] *)
Definition delete_shorten_handler (shortCode : string) : Async Response :=
  deletedCount <- deleteOne (by_shortCode shortCode) ;;
  if deletedCount =? 0
  then ret (json_response (error_json not_found_json) 404)
  else ret (c_json (message_json url_deleted)).

(** The handler of [app.get("/api/v1/shorten/:shortCode/stats")] *)
Definition get_stats_handler (code : string) : Async Response :=
  mapping <- findOne (by_shortCode code) ;;
  match mapping with
  | None => ret (json_response (error_json not_found_json) 404)
  | Some mapping =>
      ret (c_json (stats_json (shortCode mapping) (url mapping)
                              (clicks mapping) (createdAt mapping)))
  end.

(** The handler of [app.get("/")] *)
Definition get_root_handler : Async Response := ret (c_text "Hello Hono!").

(** [app.post("/api/v1/shorten")] *)
Definition post_shorten (env : Env) (body : Body) (coll : Collection)
  : Response * Collection :=
  route (post_shorten_handler env body) coll.

(** [app.get("/api/v1/shorten/:shortCode")] *)
Definition get_shorten (shortCode : string) (coll : Collection)
  : Response * Collection :=
  route (get_shorten_handler shortCode) coll.

(** [app.put("/api/v1/shorten/:shortCode")] *)
Definition put_shorten (shortCode : string) (body : Body) (coll : Collection)
  : Response * Collection :=
  route (put_shorten_handler shortCode body) coll.

(** [app.delete("/api/v1/shorten/:shortCode")] *)
Definition delete_shorten (shortCode : string) (coll : Collection)
  : Response * Collection :=
  route (delete_shorten_handler shortCode) coll.

(** [app.get("/api/v1/shorten/:shortCode/stats")] *)
Definition get_stats (code : string) (coll : Collection)
  : Response * Collection :=
  route (get_stats_handler code) coll.

(** [app.get("/")] *)
Definition get_root (coll : Collection) : Response * Collection :=
  route get_root_handler coll.

(** ** The application as a transition system *)

Definition app (env : Env) (r : Request) (coll : Collection)
  : Response * Collection :=
  match r with
  | POST_shorten body => post_shorten env body coll
  | GET_shorten code => get_shorten code coll
  | PUT_shorten code body => put_shorten code body coll
  | DELETE_shorten code => delete_shorten code coll
  | GET_stats code => get_stats code coll
  | GET_root => get_root coll
  end.

(** The collections the application can build, starting from an empty one. *)
Inductive reachable : Collection -> Prop :=
| reachable_empty : reachable []
| reachable_step : forall coll env r,
    reachable coll -> reachable (snd (app env r coll)).

(** Running a list of requests, each with its own environment. *)
Fixpoint run (rs : list (Env * Request)) (coll : Collection) : Collection :=
  match rs with
  | [] => coll
  | (env, r) :: rs' => run rs' (snd (app env r coll))
  end.

(** The collections the application can build from the empty one when
    every environment satisfies [good]. *)
Inductive reachable_with (good : Env -> Prop) : Collection -> Prop :=
| reachable_with_empty : reachable_with good []
| reachable_with_step : forall coll env r,
    good env -> reachable_with good coll ->
    reachable_with good (snd (app env r coll)).

(** The same redirect request, [n] times in a row. *)
Definition redirects (code : string) (n : nat) (coll : Collection)
  : Collection :=
  Nat.iter n (fun c => snd (get_shorten code c)) coll.

(** The same delete request, [n] times in a row. *)
Definition deletes (code : string) (n : nat) (coll : Collection)
  : Collection :=
  Nat.iter n (fun c => snd (delete_shorten code c)) coll.

(** Two create requests that draw the same random numbers: the store then
    holds two records with the short code "aaaaaa". *)
Definition twice_created : Collection :=
  run [(zero_env, POST_shorten (url_body (js_string "https://example.com")));
       (zero_env, POST_shorten (url_body (js_string "https://example.org")))]
      [].

(** A store after two create requests and two redirects on the first
    code. *)
Definition visited_twice : Collection :=
  run [(zero_env, POST_shorten (url_body (js_string "https://example.com")));
       (sample_env, POST_shorten (url_body (js_string "https://example.org")));
       (zero_env, GET_shorten "aaaaaa");
       (zero_env, GET_shorten "aaaaaa")] [].

(** A store that is reached with [Math.random] in [0, 1). *)
Definition fairly_created : Collection :=
  run [(sample_env, POST_shorten (url_body (js_string "https://example.com")));
       (low_env, POST_shorten (url_body (js_string "https://example.org")));
       (low_env, GET_shorten "qqqqqq")] [].

(** A store with one record whose url has a line feed inside. *)
Definition with_two_lines : Collection :=
  run [(zero_env, POST_shorten (url_body (js_string two_lines)))] [].

(** ** Lemmas on the collection operations *)

Section FirstMatch.

Variable code : string.

Lemma known_first_match (coll : Collection) :
  known code coll -> exists l1 m l2, first_match code coll l1 m l2.
Proof.
  induction coll as [|d rest IH]; intros [x [Hin Hx]].
  - inversion Hin.
  - destruct (String.eqb_spec (shortCode d) code) as [Hd|Hd].
    + exists [], d, rest.
      split; [reflexivity | split; [intros ? [] | exact Hd]].
    + destruct Hin as [->|Hin]; [contradiction|].
      destruct IH as (l1 & m & l2 & Heq & Hl1 & Hm); [exists x; auto|].
      exists (d :: l1), m, l2. repeat split; auto.
      * simpl; congruence.
      * intros y [<-|Hy]; auto.
Qed.

Lemma known_unknown (coll : Collection) :
  known code coll -> unknown code coll -> False.
Proof. intros [d [Hin Hd]] Hu. exact (Hu d Hin Hd). Qed.

Lemma first_match_unique (coll l1 l1' : Collection) (m m' : UrlMapping)
  (l2 l2' : Collection) :
  first_match code coll l1 m l2 -> first_match code coll l1' m' l2' ->
  l1 = l1' /\ m = m' /\ l2 = l2'.
Proof.
  intros (-> & Hl1 & Hm). revert l1' Hl1.
  induction l1 as [|d l1 IH]; intros l1' Hl1 (Heq & Hl1' & Hm').
  - destruct l1' as [|d' l1']; simpl in Heq.
    + inversion Heq; subst; auto.
    + inversion Heq; subst. exfalso. apply (Hl1' d'); simpl; auto.
  - destruct l1' as [|d' l1']; simpl in Heq.
    + inversion Heq; subst. exfalso. apply (Hl1 m'); simpl; auto.
    + inversion Heq; subst.
      destruct (IH l1') as (E1 & E2 & E3).
      * intros y Hy; apply Hl1; simpl; auto.
      * repeat split; auto. intros y Hy; apply Hl1'; simpl; auto.
      * subst; auto.
Qed.

Lemma find_unknown (coll : Collection) :
  unknown code coll -> find (matches (by_shortCode code)) coll = None.
Proof.
  induction coll as [|d rest IH]; intros Hu; simpl; auto.
  assert (Hd : String.eqb (shortCode d) code = false)
    by (apply String.eqb_neq, Hu; simpl; auto).
  rewrite Hd. apply IH. intros y Hy; apply Hu; simpl; auto.
Qed.

Lemma find_first_match (coll l1 : Collection) (m : UrlMapping)
  (l2 : Collection) :
  first_match code coll l1 m l2 -> find (matches (by_shortCode code)) coll = Some m.
Proof.
  intros (-> & Hl1 & Hm).
  induction l1 as [|d l1 IH]; simpl.
  - apply String.eqb_eq in Hm. rewrite Hm. reflexivity.
  - assert (Hd : String.eqb (shortCode d) code = false)
      by (apply String.eqb_neq, Hl1; simpl; auto).
    rewrite Hd. apply IH. intros y Hy; apply Hl1; simpl; auto.
Qed.

Lemma update_first_unknown (u : Update) (coll : Collection) :
  unknown code coll -> update_first (by_shortCode code) u coll = (0, coll).
Proof.
  induction coll as [|d rest IH]; intros Hu; simpl; auto.
  assert (Hd : String.eqb (shortCode d) code = false)
    by (apply String.eqb_neq, Hu; simpl; auto).
  rewrite Hd, IH; auto. intros y Hy; apply Hu; simpl; auto.
Qed.

Lemma update_first_match (u : Update) (coll l1 : Collection)
  (m : UrlMapping) (l2 : Collection) :
  first_match code coll l1 m l2 ->
  update_first (by_shortCode code) u coll = (1, l1 ++ apply_update u m :: l2).
Proof.
  intros (-> & Hl1 & Hm).
  induction l1 as [|d l1 IH]; simpl.
  - apply String.eqb_eq in Hm. rewrite Hm. reflexivity.
  - assert (Hd : String.eqb (shortCode d) code = false)
      by (apply String.eqb_neq, Hl1; simpl; auto).
    rewrite Hd, IH; auto. intros y Hy; apply Hl1; simpl; auto.
Qed.

Lemma delete_first_unknown (coll : Collection) :
  unknown code coll -> delete_first (by_shortCode code) coll = (0, coll).
Proof.
  induction coll as [|d rest IH]; intros Hu; simpl; auto.
  assert (Hd : String.eqb (shortCode d) code = false)
    by (apply String.eqb_neq, Hu; simpl; auto).
  rewrite Hd, IH; auto. intros y Hy; apply Hu; simpl; auto.
Qed.

Lemma delete_first_match (coll l1 : Collection) (m : UrlMapping)
  (l2 : Collection) :
  first_match code coll l1 m l2 ->
  delete_first (by_shortCode code) coll = (1, l1 ++ l2).
Proof.
  intros (-> & Hl1 & Hm).
  induction l1 as [|d l1 IH]; simpl.
  - apply String.eqb_eq in Hm. rewrite Hm. reflexivity.
  - assert (Hd : String.eqb (shortCode d) code = false)
      by (apply String.eqb_neq, Hl1; simpl; auto).
    rewrite Hd, IH; auto. intros y Hy; apply Hl1; simpl; auto.
Qed.

Lemma known_or_unknown (coll : Collection) :
  known code coll \/ unknown code coll.
Proof.
  induction coll as [|d rest [Hk|Hu]].
  - right. intros ? [].
  - left. destruct Hk as [x [Hin Hx]]. exists x; simpl; auto.
  - destruct (String.eqb_spec (shortCode d) code) as [Hd|Hd].
    + left. exists d; simpl; auto.
    + right. intros y [<-|Hy]; auto.
Qed.

Lemma count_code_unknown (coll : Collection) :
  unknown code coll <-> count_code code coll = 0%nat.
Proof.
  unfold count_code. split.
  - induction coll as [|d rest IH]; intros Hu; simpl; auto.
    assert (Hd : String.eqb (shortCode d) code = false)
      by (apply String.eqb_neq, Hu; simpl; auto).
    rewrite Hd. apply IH. intros y Hy; apply Hu; simpl; auto.
  - induction coll as [|d rest IH]; simpl; intros Hc y Hy.
    + inversion Hy.
    + destruct (String.eqb (shortCode d) code) eqn:Hd; [discriminate|].
      destruct Hy as [<-|Hy]; [apply String.eqb_neq; exact Hd|].
      apply IH; auto.
Qed.

Lemma count_code_app (l1 l2 : Collection) :
  count_code code (l1 ++ l2) = (count_code code l1 + count_code code l2)%nat.
Proof.
  unfold count_code. rewrite filter_app, length_app. reflexivity.
Qed.

Lemma count_code_first_match (coll l1 : Collection) (m : UrlMapping)
  (l2 : Collection) :
  first_match code coll l1 m l2 ->
  count_code code coll = S (count_code code l2) /\
  count_code code (l1 ++ l2) = count_code code l2.
Proof.
  intros (-> & Hl1 & Hm).
  assert (H1 : count_code code l1 = 0%nat) by (apply count_code_unknown; exact Hl1).
  rewrite !count_code_app, H1. split; auto.
  unfold count_code at 1. simpl.
  apply String.eqb_eq in Hm. rewrite Hm. reflexivity.
Qed.

Lemma others_first_match (coll l1 : Collection) (m : UrlMapping)
  (l2 : Collection) :
  first_match code coll l1 m l2 ->
  others code coll = others code (l1 ++ l2).
Proof.
  intros (-> & _ & Hm). unfold others.
  rewrite !filter_app. simpl.
  apply String.eqb_eq in Hm. rewrite Hm. reflexivity.
Qed.

End FirstMatch.

(** ** The rounded product of a random number and [chars.length] *)

(** The number of binary digits of [p]: [p] lies below the power of two
    with that exponent, and not below half of it. *)
Lemma digits2_pos_lt (p : positive) : Zpos p < 2 ^ Zpos (digits2_pos p).
Proof.
  induction p as [p IH|p IH|]; cbn [digits2_pos];
    rewrite ?Pos2Z.inj_succ, ?Z.pow_succ_r by lia; lia.
Qed.

Lemma digits2_pos_ge (p : positive) : 2 ^ Zpos (digits2_pos p) <= 2 * Zpos p.
Proof.
  induction p as [p IH|p IH|]; cbn [digits2_pos];
    rewrite ?Pos2Z.inj_succ, ?Z.pow_succ_r by lia; lia.
Qed.

Lemma digits2_pos_le_of_lt (p : positive) (n : Z) :
  0 <= n -> Zpos p < 2 ^ n -> Zpos (digits2_pos p) <= n.
Proof.
  intros Hn Hlt.
  destruct (Z.le_gt_cases (Zpos (digits2_pos p)) n) as [H|H]; [exact H|].
  exfalso.
  pose proof (digits2_pos_ge p) as Hge.
  assert (2 ^ (n + 1) <= 2 ^ Zpos (digits2_pos p))
    by (apply Z.pow_le_mono_r; lia).
  rewrite Z.pow_add_r in H0 by lia. lia.
Qed.

(** One step of the right shift halves the mantissa. *)
Lemma shr_m_shr_1 (mrs : shr_record) :
  0 <= shr_m mrs -> shr_m (shr_1 mrs) = shr_m mrs / 2.
Proof.
  destruct mrs as [m r s]. cbn [shr_m]. intros Hm.
  rewrite <- Z.div2_div.
  destruct m as [|[p|p|]|p]; try reflexivity. lia.
Qed.

Lemma shr_m_shr_1_nonneg (mrs : shr_record) :
  0 <= shr_m mrs -> 0 <= shr_m (shr_1 mrs).
Proof.
  intros H. rewrite shr_m_shr_1 by exact H. apply Z.div_pos; lia.
Qed.

Lemma pow2_xI (p : positive) : 2 ^ Zpos p~1 = 2 * (2 ^ Zpos p * 2 ^ Zpos p).
Proof.
  assert (E : Zpos p~1 = 1 + Zpos p + Zpos p) by lia.
  rewrite E, !Z.pow_add_r by lia. lia.
Qed.

Lemma pow2_xO (p : positive) : 2 ^ Zpos p~0 = 2 ^ Zpos p * 2 ^ Zpos p.
Proof.
  assert (E : Zpos p~0 = Zpos p + Zpos p) by lia.
  rewrite E, !Z.pow_add_r by lia. lia.
Qed.

(** [p] steps divide it by [2 ^ p]. *)
Lemma shr_m_iter_pos (p : positive) :
  forall mrs, 0 <= shr_m mrs ->
    shr_m (iter_pos shr_1 p mrs) = shr_m mrs / 2 ^ Zpos p.
Proof.
  induction p as [p IH|p IH|]; intros mrs Hm; cbn [iter_pos].
  - assert (H1 : 0 <= shr_m (shr_1 mrs)) by (apply shr_m_shr_1_nonneg, Hm).
    assert (H2 : 0 <= shr_m (iter_pos shr_1 p (shr_1 mrs)))
      by (rewrite IH by exact H1; apply Z.div_pos; lia).
    rewrite IH by exact H2. rewrite IH by exact H1.
    rewrite shr_m_shr_1 by exact Hm.
    assert (Hp : 0 < 2 ^ Zpos p) by (apply Z.pow_pos_nonneg; lia).
    rewrite !Z.div_div by lia.
    rewrite pow2_xI. f_equal; lia.
  - assert (H2 : 0 <= shr_m (iter_pos shr_1 p mrs))
      by (rewrite IH by exact Hm; apply Z.div_pos; lia).
    rewrite IH by exact H2. rewrite IH by exact Hm.
    assert (Hp : 0 < 2 ^ Zpos p) by (apply Z.pow_pos_nonneg; lia).
    rewrite !Z.div_div by lia.
    rewrite pow2_xO. reflexivity.
  - rewrite shr_m_shr_1 by exact Hm. reflexivity.
Qed.

(** [shr_fexp] shifts the mantissa right by [n >= 0] places and raises the
    exponent by [n]. *)
Lemma shr_fexp_spec (m e : Z) (l : location) :
  0 <= m ->
  exists n, 0 <= n /\
    n = Z.max 0 (fexp 53 1024 (Zdigits2 m + e) - e) /\
    shr_m (fst (shr_fexp 53 1024 m e l)) = m / 2 ^ n /\
    snd (shr_fexp 53 1024 m e l) = e + n.
Proof.
  intros Hm. unfold shr_fexp, shr.
  set (d := fexp 53 1024 (Zdigits2 m + e) - e).
  assert (Hrec : shr_m (shr_record_of_loc m l) = m)
    by (destruct l as [|[| |]]; reflexivity).
  destruct d as [|p|p] eqn:Hd.
  - exists 0. cbn [fst snd]. rewrite Hrec, Z.div_1_r.
    repeat split; lia.
  - exists (Zpos p). cbn [fst snd].
    rewrite shr_m_iter_pos by (rewrite Hrec; exact Hm). rewrite Hrec.
    repeat split; lia.
  - exists 0. cbn [fst snd]. rewrite Hrec, Z.div_1_r.
    repeat split; lia.
Qed.

(** Rounding to nearest adds at most one unit in the last place. *)
Lemma round_nearest_even_bounds (m : Z) (l : location) :
  m <= round_nearest_even m l <= m + 1.
Proof.
  destruct l as [|[| |]]; cbn [round_nearest_even];
    try destruct (Z.even m); lia.
Qed.


Lemma Zdigits2_le_of_lt (m n : Z) :
  0 <= m -> 0 <= n -> m < 2 ^ n -> Zdigits2 m <= n.
Proof.
  intros Hm Hn Hlt. destruct m as [|p|p]; cbn [Zdigits2]; [lia| |lia].
  apply digits2_pos_le_of_lt; assumption.
Qed.

Lemma fexp_le (d : Z) : d <= 6 -> fexp 53 1024 d <= -47.
Proof. intros H. unfold fexp, emin. lia. Qed.

(** A mantissa [M] at exponent [E] whose value, with one unit of the last
    place added, stays below 62, is rounded to a number whose floor is an
    integer from 0 to 61. *)
Lemma binary_round_aux_floor (M : positive) (E : Z) :
  E <= -47 ->
  Zpos M + 2 ^ Z.max 0 (fexp 53 1024 (Zdigits2 (Zpos M) + E) - E)
  < 62 * 2 ^ (- E) ->
  exists k,
    Math_floor (binary_round_aux 53 1024 false (Zpos M) E loc_Exact) = js_int k /\
    0 <= k < 62.
Proof.
  intros HE Hbound.
  unfold binary_round_aux.
  destruct (shr_fexp_spec (Zpos M) E loc_Exact) as (n1 & Hn1 & Hn1eq & Hm1 & He1);
    [lia|].
  destruct (shr_fexp 53 1024 (Zpos M) E loc_Exact) as [mrs1 e1].
  cbn [fst snd] in Hm1, He1.
  rewrite <- Hn1eq in Hbound.
  set (m1 := round_nearest_even (shr_m mrs1) (loc_of_shr_record mrs1)).
  pose proof (round_nearest_even_bounds (shr_m mrs1) (loc_of_shr_record mrs1))
    as Hrne. fold m1 in Hrne. rewrite Hm1 in Hrne.
  assert (HA : 0 < 2 ^ n1) by (apply Z.pow_pos_nonneg; lia).
  assert (Hq : 0 <= Zpos M / 2 ^ n1) by (apply Z.div_pos; lia).
  (* the exponent after the first shift *)
  assert (HMlt : Zpos M < 2 ^ (- E + 6)).
  { rewrite Z.pow_add_r by lia. change (2 ^ 6) with 64.
    assert (0 < 2 ^ (- E)) by (apply Z.pow_pos_nonneg; lia). lia. }
  assert (HD : Zdigits2 (Zpos M) + E <= 6).
  { pose proof (Zdigits2_le_of_lt (Zpos M) (- E + 6)). lia. }
  assert (He1le : e1 <= -47).
  { pose proof (fexp_le _ HD). lia. }
  assert (Hsplit : 2 ^ (- E) = 2 ^ n1 * 2 ^ (- e1)).
  { rewrite <- Z.pow_add_r by lia. f_equal. lia. }
  assert (HB : 0 < 2 ^ (- e1)) by (apply Z.pow_pos_nonneg; lia).
  assert (Hm1lt : m1 < 62 * 2 ^ (- e1)).
  { pose proof (Z.div_mod (Zpos M) (2 ^ n1) ltac:(lia)) as Hdm.
    pose proof (Z.mod_pos_bound (Zpos M) (2 ^ n1) HA) as Hmod.
    rewrite Hsplit in Hbound.
    assert (2 ^ n1 * (Zpos M / 2 ^ n1 + 1) < 2 ^ n1 * (62 * 2 ^ (- e1)))
      by lia.
    apply Z.mul_lt_mono_pos_l in H; lia. }
  assert (Hm1nn : 0 <= m1) by lia.
  destruct (shr_fexp_spec m1 e1 loc_Exact Hm1nn)
    as (n2 & Hn2 & Hn2eq & Hm2 & He2).
  destruct (shr_fexp 53 1024 m1 e1 loc_Exact) as [mrs2 e2].
  cbn [fst snd] in Hm2, He2.
  assert (HD1 : Zdigits2 m1 + e1 <= 6).
  { pose proof (Zdigits2_le_of_lt m1 (- e1 + 6)) as Hd.
    rewrite Z.pow_add_r in Hd by lia. change (2 ^ 6) with 64 in Hd. lia. }
  assert (He2le : e2 <= -47).
  { pose proof (fexp_le _ HD1). lia. }
  assert (HC : 0 < 2 ^ n2) by (apply Z.pow_pos_nonneg; lia).
  assert (Hsplit2 : 2 ^ (- e1) = 2 ^ n2 * 2 ^ (- e2)).
  { rewrite <- Z.pow_add_r by lia. f_equal. lia. }
  assert (Hm2nn : 0 <= shr_m mrs2) by (rewrite Hm2; apply Z.div_pos; lia).
  destruct (shr_m mrs2) as [|p2|p2] eqn:Hp2.
  - exists 0. split; [reflexivity | lia].
  - assert (Hle : (e2 <=? 1024 - 53) = true) by (apply Z.leb_le; lia).
    rewrite Hle. cbn [Math_floor cond_Zopp].
    exists (Z.shiftl (Zpos p2) e2). split; [reflexivity|].
    rewrite Z.shiftl_div_pow2 by lia.
    rewrite <- Hp2, Hm2 in *. rewrite Z.div_div by lia.
    rewrite <- Hsplit2.
    split; [apply Z.div_pos; lia|].
    apply Z.div_lt_upper_bound; lia.
  - lia.
Qed.

(** A finite number in [0, 1) has an exponent of -53 or less and a mantissa
    of at most 53 bits. *)
Lemma unit_interval_finite (m : positive) (e : Z) :
  unit_interval (S754_finite false m e) ->
  e <= -53 /\ Zpos m < 2 ^ 53 /\ Zpos m < 2 ^ (- e) /\ -1074 <= e.
Proof.
  intros (Hb & He & Hlt).
  unfold bounded, canonical_mantissa, fexp, emin in Hb.
  apply andb_true_iff in Hb. destruct Hb as [Hc _].
  apply Z.eqb_eq in Hc.
  pose proof (digits2_pos_lt m) as Hdl.
  pose proof (digits2_pos_ge m) as Hdg.
  assert (Hd53 : Zpos (digits2_pos m) <= 53) by lia.
  assert (Hm53 : Zpos m < 2 ^ 53).
  { assert (2 ^ Zpos (digits2_pos m) <= 2 ^ 53)
      by (apply Z.pow_le_mono_r; lia). lia. }
  split; [|split; [exact Hm53 | split; [exact Hlt | lia]]].
  destruct (Z.le_gt_cases e (-53)) as [H|H]; [exact H|]. exfalso.
  assert (Hd : Zpos (digits2_pos m) = 53) by lia.
  rewrite Hd in Hdg.
  assert (2 ^ (- e) <= 2 ^ 52) by (apply Z.pow_le_mono_r; lia).
  change (2 ^ 53) with (2 * 2 ^ 52) in Hdg. lia.
Qed.

(** For every number [x] in [0, 1), [Math.floor(x * chars.length)] is an
    index into [chars].  The largest number below 1 is computed; for all
    others the product stays so far below 62 that the rounding cannot
    reach it. *)
Lemma random_index_range (x : spec_float) :
  unit_interval x ->
  chars_index
    (Math_floor (Number_mul x (Number_of_nat (String.length chars)))).
Proof.
  intros Hx.
  change (Number_of_nat (String.length chars))
    with (S754_finite false 8725724278030336 (-47)).
  unfold chars_index.
  destruct x as [[|]|s| |[|] m e]; try contradiction.
  - exists 0. split; [reflexivity | lia].
  - destruct (unit_interval_finite m e Hx) as (He & Hm53 & Hlt & Hemin).
    cbn [Number_mul SFmul xorb].
    destruct (Z.eq_dec e (-53)) as [He53|He53];
      [destruct (Z.eq_dec (Zpos m) (2 ^ 53 - 1)) as [Hmax|Hmax]|].
    + (* the largest number below 1 *)
      subst e. injection Hmax as ->.
      exists 61. split; [vm_compute; reflexivity | lia].
    + subst e. change (2 ^ (- (-53))) with (2 ^ 53) in Hlt.
      apply binary_round_aux_floor; [lia|].
      change (- (-53 + -47)) with 100.
      rewrite Pos2Z.inj_mul.
      assert (Hn : Z.max 0 (fexp 53 1024
                     (Zdigits2 (Zpos m * 8725724278030336) + (-53 + -47))
                     - (-53 + -47)) <= 53).
      { pose proof (Zdigits2_le_of_lt (Zpos m * 8725724278030336) 106) as Hd.
        change (2 ^ 106) with (2 ^ 53 * 2 ^ 53) in Hd.
        change (2 ^ 53) with 9007199254740992 in *.
        unfold fexp, emin. lia. }
      assert (2 ^ Z.max 0 (fexp 53 1024
                     (Zdigits2 (Zpos m * 8725724278030336) + (-53 + -47))
                     - (-53 + -47)) <= 2 ^ 53)
        by (apply Z.pow_le_mono_r; lia).
      change (2 ^ 100) with 1267650600228229401496703205376.
      change (2 ^ 53) with 9007199254740992 in *. lia.
    + set (a := - e). assert (Ha : 54 <= a) by lia.
      set (T := 2 ^ (a - 52)).
      assert (HT : 4 <= T).
      { change 4 with (2 ^ 2). apply Z.pow_le_mono_r; lia. }
      assert (Hpa : 2 ^ a = 2 ^ 52 * T).
      { unfold T. rewrite <- Z.pow_add_r by lia. f_equal. lia. }
      apply binary_round_aux_floor; [lia|].
      replace (- (e + -47)) with (47 + a) by lia.
      rewrite Z.pow_add_r by lia. rewrite Hpa.
      rewrite Pos2Z.inj_mul.
      assert (Hn : Z.max 0 (fexp 53 1024
                     (Zdigits2 (Zpos m * 8725724278030336) + (e + -47))
                     - (e + -47)) <= a).
      { pose proof (Zdigits2_le_of_lt (Zpos m * 8725724278030336) (53 + 53))
          as Hd.
        rewrite Z.pow_add_r in Hd by lia.
        change (2 ^ 53) with 9007199254740992 in *.
        unfold fexp, emin. lia. }
      assert (2 ^ Z.max 0 (fexp 53 1024
                     (Zdigits2 (Zpos m * 8725724278030336) + (e + -47))
                     - (e + -47)) <= 2 ^ a)
        by (apply Z.pow_le_mono_r; lia).
      rewrite Hpa in H.
      change (2 ^ 47) with 140737488355328.
      change (2 ^ 52) with 4503599627370496 in *.
      change (2 ^ 53) with 9007199254740992 in *. lia.
Qed.

(** ** Lemmas on [generateShortCode] *)

Lemma string_length_append (s1 s2 : string) :
  String.length (s1 ++ s2) = (String.length s1 + String.length s2)%nat.
Proof. induction s1 as [|c s1 IH]; simpl; auto. Qed.

Lemma all_chars_append (p : ascii -> bool) (s1 s2 : string) :
  all_chars p (s1 ++ s2) = all_chars p s1 && all_chars p s2.
Proof.
  induction s1 as [|c s1 IH]; simpl; auto.
  rewrite IH. apply andb_assoc.
Qed.

Lemma random_index_chars_index (rnd : nat -> spec_float) :
  (forall j, unit_interval (rnd j)) ->
  forall j, chars_index (random_index rnd j).
Proof. intros Hrnd j. apply random_index_range, Hrnd. Qed.

Lemma charAt_chars_table :
  forallb (fun n => one_alphanumeric (charAt chars (js_int (Z.of_nat n))))
    (seq 0 62)
  = true.
Proof. vm_compute. reflexivity. Qed.

Lemma charAt_chars (pos : js_integer) :
  chars_index pos -> one_alphanumeric (charAt chars pos) = true.
Proof.
  intros (k & -> & Hk).
  pose proof charAt_chars_table as Ht.
  rewrite forallb_forall in Ht.
  specialize (Ht (Z.to_nat k)).
  rewrite Z2Nat.id in Ht by lia.
  apply Ht, in_seq. lia.
Qed.

Lemma one_alphanumeric_inv (s : string) :
  one_alphanumeric s = true ->
  String.length s = 1%nat /\ all_chars alphanumeric s = true.
Proof.
  destruct s as [|c [|c' s]]; simpl; try discriminate.
  intros ->. auto.
Qed.

Lemma generateShortCode_loop_spec (rnd : nat -> spec_float) :
  (forall j, unit_interval (rnd j)) ->
  forall n i result,
    String.length (generateShortCode_loop rnd i n result)
    = (String.length result + n)%nat /\
    all_chars alphanumeric (generateShortCode_loop rnd i n result)
    = all_chars alphanumeric result.
Proof.
  intros Hrnd. induction n as [|n IH]; intros i result;
    cbn [generateShortCode_loop].
  - split; [lia | reflexivity].
  - fold (random_index rnd i).
    destruct (IH (S i) (result ++ charAt chars (random_index rnd i))%string)
      as [Hlen Hall].
    destruct (one_alphanumeric_inv _
                (charAt_chars _ (random_index_chars_index rnd Hrnd i)))
      as [Hlen1 Hall1].
    rewrite Hlen, Hall, string_length_append, all_chars_append, Hlen1, Hall1.
    split; [lia | apply andb_true_r].
Qed.

Lemma generateShortCode_spec (rnd : nat -> spec_float) :
  (forall j, unit_interval (rnd j)) ->
  String.length (generateShortCode rnd) = 6%nat /\
  all_chars alphanumeric (generateShortCode rnd) = true.
Proof.
  intros Hrnd. unfold generateShortCode, generateShortCode_len.
  destruct (generateShortCode_loop_spec rnd Hrnd 6 0%nat "") as [Hlen Hall].
  rewrite Hlen, Hall. split; reflexivity.
Qed.

Lemma string_append_assoc (s1 s2 s3 : string) :
  ((s1 ++ s2) ++ s3 = s1 ++ (s2 ++ s3))%string.
Proof. induction s1 as [|c s1 IH]; simpl; [|rewrite IH]; reflexivity. Qed.

Lemma string_append_empty_r (s : string) : (s ++ "" = s)%string.
Proof. induction s as [|c s IH]; simpl; [|rewrite IH]; reflexivity. Qed.

Lemma generateShortCode_loop_chars_at (rnd : nat -> spec_float) :
  forall n i result,
    generateShortCode_loop rnd i n result
    = (result ++ chars_at (map (random_index rnd) (seq i n)))%string.
Proof.
  induction n as [|n IH]; intros i result;
    cbn [generateShortCode_loop seq map chars_at].
  - symmetry. apply string_append_empty_r.
  - rewrite IH, string_append_assoc. reflexivity.
Qed.

Lemma charAt_chars_char (pos : js_integer) :
  chars_index pos ->
  exists i c, pos = js_int i /\ 0 <= i < 62 /\
              charAt chars pos = String c "" /\
              String.get (Z.to_nat i) chars = Some c.
Proof.
  intros Hpos. pose proof (charAt_chars pos Hpos) as Hone.
  destruct Hpos as (k & -> & Hk). exists k.
  unfold charAt in *.
  destruct (k <? 0); [discriminate Hone|].
  destruct (String.get (Z.to_nat k) chars) as [c|]; [|discriminate Hone].
  exists c. repeat split; try reflexivity; lia.
Qed.

Lemma charAt_chars_distinct_table :
  forallb (fun j =>
    forallb (fun k =>
      implb (String.eqb (charAt chars (js_int (Z.of_nat j)))
                        (charAt chars (js_int (Z.of_nat k))))
            (Nat.eqb j k))
      (seq 0 62))
    (seq 0 62) = true.
Proof. vm_compute. reflexivity. Qed.

Lemma charAt_chars_inj (p q : js_integer) :
  chars_index p -> chars_index q ->
  charAt chars p = charAt chars q -> p = q.
Proof.
  intros (j & -> & Hj) (k & -> & Hk) Heq.
  pose proof charAt_chars_distinct_table as Ht.
  rewrite forallb_forall in Ht.
  assert (Hinj : In (Z.to_nat j) (seq 0 62)) by (apply in_seq; lia).
  assert (Hink : In (Z.to_nat k) (seq 0 62)) by (apply in_seq; lia).
  specialize (Ht (Z.to_nat j) Hinj).
  rewrite forallb_forall in Ht.
  specialize (Ht (Z.to_nat k) Hink).
  rewrite !Z2Nat.id in Ht by lia.
  rewrite Heq, String.eqb_refl in Ht. simpl in Ht.
  apply Nat.eqb_eq in Ht. f_equal. lia.
Qed.

Section IndexStreams.

Variables f g : nat -> js_integer.
Hypothesis f_range : forall j, chars_index (f j).
Hypothesis g_range : forall j, chars_index (g j).

Lemma get_chars_at_seq :
  forall n i k, (k < n)%nat ->
    exists idx, f (i + k)%nat = js_int idx /\ 0 <= idx < 62 /\
      String.get k (chars_at (map f (seq i n)))
      = String.get (Z.to_nat idx) chars.
Proof.
  induction n as [|n IH]; intros i k Hk; [lia|].
  cbn [seq map chars_at].
  destruct (charAt_chars_char (f i) (f_range i))
    as (idx & c & Hidx & Hrange & Hc & Hget).
  rewrite Hc. destruct k as [|k]; simpl.
  - exists idx. rewrite Nat.add_0_r. repeat split; auto; lia.
  - destruct (IH (S i) k ltac:(lia)) as (idx' & Hidx' & Hrange' & Hget').
    exists idx'. rewrite Nat.add_succ_r. repeat split; auto; lia.
Qed.

Lemma chars_at_seq_eq_iff :
  forall n i,
    chars_at (map f (seq i n)) = chars_at (map g (seq i n)) <->
    (forall k, (k < n)%nat -> f (i + k)%nat = g (i + k)%nat).
Proof.
  induction n as [|n IH]; intros i; cbn [seq map chars_at].
  - split; [intros _ k Hk; lia | reflexivity].
  - destruct (charAt_chars_char (f i) (f_range i))
      as (idx & c & _ & _ & Hc & _).
    destruct (charAt_chars_char (g i) (g_range i))
      as (idx' & c' & _ & _ & Hc' & _).
    split.
    + intros Heq. rewrite Hc, Hc' in Heq. simpl in Heq.
      injection Heq as Hcc Hrest.
      assert (Hi : f i = g i).
      { apply charAt_chars_inj; auto. rewrite Hc, Hc', Hcc. reflexivity. }
      intros [|k] Hk.
      * rewrite Nat.add_0_r. exact Hi.
      * rewrite Nat.add_succ_r.
        apply (proj1 (IH (S i)) Hrest k). lia.
    + intros Hall.
      pose proof (Hall 0%nat ltac:(lia)) as Hi. rewrite Nat.add_0_r in Hi.
      rewrite Hi. f_equal. apply IH.
      intros k Hk. specialize (Hall (S k) ltac:(lia)).
      rewrite Nat.add_succ_r in Hall. exact Hall.
Qed.

End IndexStreams.

(** ** Lemmas on the [Location] header *)

Lemma strip_leading_id (s : string) :
  starts_with_whitespace s = false -> strip_leading s = s.
Proof.
  destruct s as [|c s]; simpl; [reflexivity|]. intros ->. reflexivity.
Qed.

Lemma strip_trailing_id (s : string) :
  ends_with_whitespace s = false -> strip_trailing s = s.
Proof.
  induction s as [|c s IH]; [reflexivity|].
  destruct s as [|c' s'].
  - simpl. intros ->. reflexivity.
  - intros H. change (ends_with_whitespace (String c' s') = false) in H.
    cbn [strip_trailing]. cbn [strip_trailing] in IH.
    rewrite (IH H). reflexivity.
Qed.

Lemma set_Location_plain (s : string) :
  valid_header_value s = true ->
  starts_with_whitespace s = false ->
  ends_with_whitespace s = false ->
  set_Location s = normal s.
Proof.
  intros Hv Hs He. unfold set_Location, normalize_header_value.
  rewrite (strip_leading_id s Hs), (strip_trailing_id s He), Hv.
  reflexivity.
Qed.

Lemma plain_location_inv (s : string) :
  plain_location s = true ->
  beyond_latin1 s = false /\ valid_header_value s = true /\
  starts_with_whitespace s = false /\ ends_with_whitespace s = false.
Proof.
  unfold plain_location. intros H.
  apply andb_true_iff in H. destruct H as [H He].
  apply andb_true_iff in H. destruct H as [H Hs].
  apply andb_true_iff in H. destruct H as [Hb Hv].
  apply negb_true_iff in Hb, Hs, He. auto.
Qed.

Lemma redirect_answer_status (location : js_value) :
  status (redirect_answer location) = 302 \/
  status (redirect_answer location) = 500.
Proof.
  unfold redirect_answer, c_redirect.
  destruct (set_Location _); [left | right]; reflexivity.
Qed.

Lemma redirect_answer_latin1 (s : string) :
  beyond_latin1 s = false ->
  redirect_answer (js_string s) =
    if valid_header_value (normalize_header_value s)
    then redirect_response (normalize_header_value s) 302
    else internal_server_error.
Proof.
  intros Hb. unfold redirect_answer, c_redirect, String_of, set_Location.
  rewrite Hb.
  destruct (valid_header_value (normalize_header_value s)); reflexivity.
Qed.

Lemma redirect_answer_plain (s : string) :
  plain_location s = true ->
  redirect_answer (js_string s) = redirect_response s 302.
Proof.
  intros Hp. destruct (plain_location_inv s Hp) as (Hb & Hv & Hs & He).
  unfold redirect_answer, c_redirect, String_of. rewrite Hb.
  rewrite (set_Location_plain s Hv Hs He). reflexivity.
Qed.

Lemma encodeURI_char_safe (c : ascii) :
  all_chars header_safe
    (if any_char (Ascii.eqb c) uri_unescaped then String c ""
     else percent_encode c) = true.
Proof. destruct c as [[] [] [] [] [] [] [] []]; reflexivity. Qed.

Lemma encodeURI_safe (s : string) : all_chars header_safe (encodeURI s) = true.
Proof.
  induction s as [|c s IH]; [reflexivity|].
  cbn [encodeURI]. rewrite all_chars_append, encodeURI_char_safe, IH.
  reflexivity.
Qed.

Lemma header_safe_inv (c : ascii) :
  header_safe c = true ->
  http_whitespace c = false /\ forbidden_in_header c = false.
Proof.
  unfold header_safe. intros H. apply andb_true_iff in H.
  destruct H as [H1 H2]. apply negb_true_iff in H1, H2. auto.
Qed.

Lemma all_header_safe_plain (s : string) :
  all_chars header_safe s = true ->
  valid_header_value s = true /\
  starts_with_whitespace s = false /\ ends_with_whitespace s = false.
Proof.
  unfold valid_header_value.
  induction s as [|c s IH]; [auto|].
  cbn [all_chars]. intros H. apply andb_true_iff in H.
  destruct H as [Hc Hs].
  destruct (header_safe_inv c Hc) as [Hw Hf].
  destruct (IH Hs) as (Hv & _ & He).
  apply negb_true_iff in Hv.
  cbn [any_char starts_with_whitespace]. rewrite Hf, Hv.
  split; [reflexivity | split; [exact Hw|]].
  destruct s as [|c' s']; [exact Hw | exact He].
Qed.

Lemma redirect_answer_encoded (s : string) :
  beyond_latin1 s = true ->
  redirect_answer (js_string s) = redirect_response (encodeURI s) 302.
Proof.
  intros Hb. unfold redirect_answer, c_redirect, String_of. rewrite Hb.
  destruct (all_header_safe_plain _ (encodeURI_safe s)) as (Hv & Hs & He).
  rewrite (set_Location_plain _ Hv Hs He). reflexivity.
Qed.

(** ** The handlers on a known and on an unknown short code *)

Lemma falsy_string (u : string) : u <> "" -> falsy (js_string u) = false.
Proof. intros Hu. simpl. apply String.eqb_neq, Hu. Qed.

Lemma falsy_spec (v : js_value) :
  falsy v = true <->
  v = js_undefined \/ v = js_null \/ v = js_bool false \/
  (exists s, v = js_number (S754_zero s)) \/ v = js_number S754_nan \/
  v = js_string "".
Proof.
  split.
  - destruct v as [| |[|]|[s|s| |s m e]|s|l|l]; simpl; try discriminate;
      try (intros _; tauto).
    + intros _. right; right; right; left. exists s. reflexivity.
    + intros H. apply String.eqb_eq in H. subst. tauto.
  - intros [->|[->|[->|[[s ->]|[->| ->]]]]]; reflexivity.
Qed.

Lemma post_shorten_throws (env : Env) (body : Body) (e : Error)
  (coll : Collection) :
  body_url body = throw e ->
  post_shorten env body coll = (internal_server_error, coll).
Proof.
  intros Hb. unfold post_shorten, route, post_shorten_handler, bind, lift.
  rewrite Hb. reflexivity.
Qed.

Lemma post_shorten_falsy (env : Env) (body : Body) (u : js_value)
  (coll : Collection) :
  body_url body = normal u -> falsy u = true ->
  post_shorten env body coll =
    (json_response (error_json url_required) 400, coll).
Proof.
  intros Hb Hf. unfold post_shorten, route, post_shorten_handler, bind, lift.
  rewrite Hb, Hf. reflexivity.
Qed.

Lemma post_shorten_truthy (env : Env) (body : Body) (u : js_value)
  (coll : Collection) :
  body_url body = normal u -> falsy u = false ->
  post_shorten env body coll =
    (json_response (shorten_json (generateShortCode (Math_random env)) u) 200,
     coll ++ [{| shortCode := generateShortCode (Math_random env);
                 url := u; clicks := 0; createdAt := now env |}]).
Proof.
  intros Hb Hf. unfold post_shorten, route, post_shorten_handler, bind, lift.
  rewrite Hb, Hf. reflexivity.
Qed.

Lemma put_shorten_throws (code : string) (body : Body) (e : Error)
  (coll : Collection) :
  body_url body = throw e ->
  put_shorten code body coll = (internal_server_error, coll).
Proof.
  intros Hb. unfold put_shorten, route, put_shorten_handler, bind, lift.
  rewrite Hb. reflexivity.
Qed.

Lemma put_shorten_falsy (code : string) (body : Body) (u : js_value)
  (coll : Collection) :
  body_url body = normal u -> falsy u = true ->
  put_shorten code body coll =
    (json_response (error_json url_required) 400, coll).
Proof.
  intros Hb Hf. unfold put_shorten, route, put_shorten_handler, bind, lift.
  rewrite Hb, Hf. reflexivity.
Qed.

Lemma put_shorten_unknown (code : string) (body : Body) (u : js_value)
  (coll : Collection) :
  body_url body = normal u -> falsy u = false ->
  unknown code coll ->
  put_shorten code body coll =
    (json_response (error_json not_found_json) 404, coll).
Proof.
  intros Hb Hf Hu.
  unfold put_shorten, route, put_shorten_handler, bind, lift, updateOne.
  rewrite Hb, Hf, (update_first_unknown code _ coll Hu). reflexivity.
Qed.

Lemma put_shorten_first_match (code : string) (body : Body) (u : js_value)
  (coll l1 : Collection) (m : UrlMapping) (l2 : Collection) :
  body_url body = normal u -> falsy u = false ->
  first_match code coll l1 m l2 ->
  put_shorten code body coll =
    (json_response (message_json url_updated) 200,
     l1 ++ apply_update (set_url u) m :: l2).
Proof.
  intros Hb Hf Hfm.
  unfold put_shorten, route, put_shorten_handler, bind, lift, updateOne.
  rewrite Hb, Hf, (update_first_match code _ coll l1 m l2 Hfm). reflexivity.
Qed.

Lemma get_shorten_unknown (code : string) (coll : Collection) :
  unknown code coll ->
  get_shorten code coll = (text_response not_found_text 404, coll).
Proof.
  intros Hu. unfold get_shorten, route, get_shorten_handler, bind, findOne.
  rewrite (find_unknown code coll Hu). reflexivity.
Qed.

Lemma get_shorten_first_match (code : string)
  (coll l1 : Collection) (m : UrlMapping) (l2 : Collection) :
  first_match code coll l1 m l2 ->
  get_shorten code coll =
    (redirect_answer (url m),
     l1 ++ apply_update (inc_clicks 1) m :: l2).
Proof.
  intros Hfm.
  unfold get_shorten, route, get_shorten_handler, bind, findOne, updateOne,
    lift, redirect_answer.
  rewrite (find_first_match code coll l1 m l2 Hfm).
  rewrite (update_first_match code (inc_clicks 1) coll l1 m l2 Hfm).
  reflexivity.
Qed.

Lemma get_stats_unknown (code : string) (coll : Collection) :
  unknown code coll ->
  get_stats code coll =
    (json_response (error_json not_found_json) 404, coll).
Proof.
  intros Hu. unfold get_stats, route, get_stats_handler, bind, findOne.
  rewrite (find_unknown code coll Hu). reflexivity.
Qed.

Lemma get_stats_first_match (code : string) (coll l1 : Collection)
  (m : UrlMapping) (l2 : Collection) :
  first_match code coll l1 m l2 ->
  get_stats code coll =
    (json_response
       (stats_json (shortCode m) (url m) (clicks m) (createdAt m)) 200,
     coll).
Proof.
  intros Hfm. unfold get_stats, route, get_stats_handler, bind, findOne.
  rewrite (find_first_match code coll l1 m l2 Hfm). reflexivity.
Qed.

Lemma delete_shorten_unknown (code : string) (coll : Collection) :
  unknown code coll ->
  delete_shorten code coll =
    (json_response (error_json not_found_json) 404, coll).
Proof.
  intros Hu.
  unfold delete_shorten, route, delete_shorten_handler, bind, deleteOne.
  rewrite (delete_first_unknown code coll Hu). reflexivity.
Qed.

Lemma delete_shorten_first_match (code : string) (coll l1 : Collection)
  (m : UrlMapping) (l2 : Collection) :
  first_match code coll l1 m l2 ->
  delete_shorten code coll =
    (json_response (message_json url_deleted) 200, l1 ++ l2).
Proof.
  intros Hfm.
  unfold delete_shorten, route, delete_shorten_handler, bind, deleteOne.
  rewrite (delete_first_match code coll l1 m l2 Hfm). reflexivity.
Qed.

Lemma shortCode_apply_update (u : Update) (d : UrlMapping) :
  shortCode (apply_update u d) = shortCode d.
Proof. destruct u; reflexivity. Qed.

Lemma first_match_update (u : Update) (code : string) (coll l1 : Collection)
  (m : UrlMapping) (l2 : Collection) :
  first_match code coll l1 m l2 ->
  first_match code (l1 ++ apply_update u m :: l2) l1 (apply_update u m) l2.
Proof.
  intros (_ & Hl1 & Hm). split; [reflexivity | split; [exact Hl1|]].
  rewrite shortCode_apply_update. exact Hm.
Qed.

Lemma first_match_append (code : string) (coll l1 : Collection)
  (m : UrlMapping) (l2 extra : Collection) :
  first_match code coll l1 m l2 ->
  first_match code (coll ++ extra) l1 m (l2 ++ extra).
Proof.
  intros (-> & Hl1 & Hm). split; [|split; assumption].
  rewrite <- app_assoc. reflexivity.
Qed.

Lemma first_match_last (code : string) (coll : Collection) (m : UrlMapping) :
  unknown code coll -> shortCode m = code ->
  first_match code (coll ++ [m]) coll m [].
Proof. intros Hu Hm. split; [reflexivity | split; assumption]. Qed.

(** ** The redirect handler *)

(** C1, amended: a redirect request on a short code that no stored record
    has is answered 404 with a plain-text message and leaves the store as
    it was.  When a record has the code, the [clicks] of the first such
    record is incremented by exactly 1, every other field and record
    staying the same, and the answer is a redirect (302) or status 500:
    for a stored url that is a string without characters above U+00FF the
    answer is a redirect to the url with the HTTP whitespace at its ends
    removed, unless a NUL, CR or LF is left in it, and then the answer is
    500, after the increment; a url without whitespace at its ends and
    without those characters is redirected to as it is stored; for a url
    string with a character above U+00FF the answer is a redirect to the
    url percent-encoded by [encodeURI].  Two
    successive redirects on the same code take [clicks] from 0 to 2 and
    get the same answer. *)
Theorem get_shorten_redirects_and_counts (coll : Collection) (code : string) :
  (unknown code coll ->
   get_shorten code coll = (text_response not_found_text 404, coll)) /\
  (known code coll ->
   exists l1 m l2,
     first_match code coll l1 m l2 /\
     snd (get_shorten code coll) =
       l1 ++ {| shortCode := shortCode m; url := url m;
                clicks := clicks m + 1; createdAt := createdAt m |} :: l2 /\
     (status (fst (get_shorten code coll)) = 302 \/
      status (fst (get_shorten code coll)) = 500) /\
     (forall s, url m = js_string s -> beyond_latin1 s = false ->
      fst (get_shorten code coll) =
        if valid_header_value (normalize_header_value s)
        then redirect_response (normalize_header_value s) 302
        else internal_server_error) /\
     (forall s, url m = js_string s -> plain_location s = true ->
      fst (get_shorten code coll) = redirect_response s 302) /\
     (forall s, url m = js_string s -> beyond_latin1 s = true ->
      fst (get_shorten code coll) = redirect_response (encodeURI s) 302) /\
     fst (get_shorten code (snd (get_shorten code coll)))
     = fst (get_shorten code coll) /\
     (clicks m = 0 ->
      snd (get_shorten code (snd (get_shorten code coll))) =
        l1 ++ {| shortCode := shortCode m; url := url m;
                 clicks := 2; createdAt := createdAt m |} :: l2)).
Proof.
  split.
  - apply get_shorten_unknown.
  - intros Hk.
    destruct (known_first_match code coll Hk) as (l1 & m & l2 & Hfm).
    exists l1, m, l2. split; [exact Hfm|].
    rewrite (get_shorten_first_match code coll l1 m l2 Hfm). cbn [fst snd].
    rewrite (get_shorten_first_match code _ l1 _ l2
               (first_match_update (inc_clicks 1) code coll l1 m l2 Hfm)).
    cbn [fst snd apply_update shortCode url clicks createdAt].
    split; [reflexivity|].
    split; [apply redirect_answer_status|].
    split; [intros s -> Hb; apply redirect_answer_latin1, Hb|].
    split; [intros s -> Hp; apply redirect_answer_plain, Hp|].
    split; [intros s -> Hb; apply redirect_answer_encoded, Hb|].
    split; [reflexivity|].
    intros ->. reflexivity.
Qed.

(** ** The stats handler *)

(** C5: a stats request on a short code that no stored record has is
    answered 404; otherwise the answer is 200 and its body holds exactly
    the short code, url, click count and creation time of the first record
    with that code; the store is left as it was in both cases. *)
Theorem get_stats_reports_record (coll : Collection) (code : string) :
  (unknown code coll ->
   get_stats code coll = (json_response (error_json not_found_json) 404, coll)) /\
  (known code coll ->
   exists l1 m l2,
     first_match code coll l1 m l2 /\
     get_stats code coll =
       (json_response
          (stats_json (shortCode m) (url m) (clicks m) (createdAt m)) 200,
        coll)).
Proof.
  split; intros H.
  - apply get_stats_unknown, H.
  - destruct (known_first_match code coll H) as (l1 & m & l2 & Hfm).
    exists l1, m, l2. split; [exact Hfm|].
    apply (get_stats_first_match code coll l1 m l2 Hfm).
Qed.

(** ** The create handler *)

(** C2: a create request whose body holds a non-empty url string stores
    exactly one new record, appended to the collection, with the given url,
    [clicks] 0 and a short code of length 6 made of the characters a-z, A-Z
    and 0-9 only; the response holds that short code and the same url. *)
Theorem post_shorten_creates_mapping (env : Env) (body : Body) (u : string)
  (coll : Collection) :
  body_url body = normal (js_string u) ->
  u <> "" ->
  (forall i, unit_interval (Math_random env i)) ->
  exists code,
    post_shorten env body coll =
      (json_response (shorten_json code (js_string u)) 200,
       coll ++ [{| shortCode := code; url := js_string u;
                   clicks := 0; createdAt := now env |}]) /\
    String.length code = 6%nat /\
    all_chars alphanumeric code = true.
Proof.
  intros Hb Hu Hrnd.
  exists (generateShortCode (Math_random env)).
  split; [|apply generateShortCode_spec, Hrnd].
  apply (post_shorten_truthy env body _ coll Hb (falsy_string u Hu)).
Qed.

(** C6, amended: a create request is answered 400 exactly when its body is
    JSON text for a value other than [null] whose url is missing or falsy,
    that is [null], [false], a zero (or NaN, which JSON cannot express) or
    the empty string; the answer then
    carries the JSON error message and no record is inserted.  A body that
    is not JSON, or is [null], is answered 500, and no record is inserted
    either. *)
Theorem post_shorten_rejects_missing_url (env : Env) (body : Body)
  (coll : Collection) :
  (status (fst (post_shorten env body coll)) = 400 <->
   exists u, body_url body = normal u /\ falsy u = true) /\
  (forall u, body_url body = normal u -> falsy u = true ->
   post_shorten env body coll =
     (json_response (error_json url_required) 400, coll)) /\
  (forall e, body_url body = throw e ->
   post_shorten env body coll = (internal_server_error, coll)) /\
  (forall u, falsy u = true <->
   u = js_undefined \/ u = js_null \/ u = js_bool false \/
   (exists s, u = js_number (S754_zero s)) \/ u = js_number S754_nan \/
   u = js_string "").
Proof.
  split; [|split; [|split]].
  - destruct (body_url body) as [u|e] eqn:Hb.
    + destruct (falsy u) eqn:Hf.
      * rewrite (post_shorten_falsy env body u coll Hb Hf).
        split; [intros _; exists u; auto | reflexivity].
      * rewrite (post_shorten_truthy env body u coll Hb Hf).
        split; [discriminate|].
        intros (u' & Hu' & Hf'). injection Hu' as <-. congruence.
    + rewrite (post_shorten_throws env body e coll Hb).
      split; [discriminate|]. intros (u' & Hu' & _). discriminate Hu'.
  - intros u. apply post_shorten_falsy.
  - intros e. apply post_shorten_throws.
  - apply falsy_spec.
Qed.

(** ** The update handler *)

(** C4: an update request with a non-empty url on a short code that some
    record has replaces the [url] field of the first record with that code
    and nothing else: its short code, [clicks] and [createdAt], and every
    other record of the store, stay as they were. *)
Theorem put_shorten_replaces_url_only (coll : Collection) (code : string)
  (body : Body) (u : string) :
  body_url body = normal (js_string u) ->
  u <> "" ->
  known code coll ->
  exists l1 m l2,
    first_match code coll l1 m l2 /\
    put_shorten code body coll =
      (json_response (message_json url_updated) 200,
       l1 ++ {| shortCode := shortCode m; url := js_string u;
                clicks := clicks m; createdAt := createdAt m |} :: l2).
Proof.
  intros Hb Hu Hk.
  destruct (known_first_match code coll Hk) as (l1 & m & l2 & Hfm).
  exists l1, m, l2. split; [exact Hfm|].
  apply (put_shorten_first_match code body _ coll l1 m l2 Hb
           (falsy_string u Hu) Hfm).
Qed.

(** C7: an update request with a non-empty url on a short code that no
    record has is answered 404 and leaves the store as it was. *)
Theorem put_shorten_unknown_code (coll : Collection) (code : string)
  (body : Body) (u : string) :
  body_url body = normal (js_string u) ->
  u <> "" ->
  unknown code coll ->
  put_shorten code body coll =
    (json_response (error_json not_found_json) 404, coll).
Proof.
  intros Hb Hu Hunk.
  apply (put_shorten_unknown code body _ coll Hb (falsy_string u Hu) Hunk).
Qed.

(** C8: an update request whose body has no url, or the empty string as
    url, is answered 400 whatever the store holds, so also when no record
    has the short code: the body is checked before the store is looked at,
    and the store is left as it was. *)
Theorem put_shorten_validates_first (coll : Collection) (code : string)
  (body : Body) :
  body_url body = normal js_undefined \/
  body_url body = normal (js_string "") ->
  put_shorten code body coll =
    (json_response (error_json url_required) 400, coll) /\
  status (fst (put_shorten code body coll)) <> 404.
Proof.
  intros H.
  assert (Hput : put_shorten code body coll =
                 (json_response (error_json url_required) 400, coll)).
  { destruct H as [H|H];
      apply (put_shorten_falsy code body _ coll H); reflexivity. }
  rewrite Hput. split; [reflexivity | discriminate].
Qed.

(** ** The delete handler *)

(** C3, amended: a delete request on a short code that at least one record
    has is answered 200 and removes the first record with that code; the
    stats request on the same code that follows is answered 404 when that
    record was the only one with the code, and is answered 200 with the
    fields of the next record with the code when several records shared
    it. *)
Theorem delete_then_stats (coll : Collection) (code : string) :
  known code coll ->
  exists l1 m l2,
    first_match code coll l1 m l2 /\
    delete_shorten code coll =
      (json_response (message_json url_deleted) 200, l1 ++ l2) /\
    (count_code code coll = 1%nat ->
     get_stats code (l1 ++ l2) =
       (json_response (error_json not_found_json) 404, l1 ++ l2)) /\
    (count_code code coll <> 1%nat ->
     exists k1 m' k2,
       first_match code l2 k1 m' k2 /\
       get_stats code (l1 ++ l2) =
         (json_response
            (stats_json (shortCode m') (url m') (clicks m') (createdAt m'))
            200,
          l1 ++ l2)).
Proof.
  intros Hk.
  destruct (known_first_match code coll Hk) as (l1 & m & l2 & Hfm).
  exists l1, m, l2.
  destruct (count_code_first_match code coll l1 m l2 Hfm) as [Hc Hc'].
  split; [exact Hfm | split; [|split]].
  - apply (delete_shorten_first_match code coll l1 m l2 Hfm).
  - intros Hn. apply get_stats_unknown. apply count_code_unknown. lia.
  - intros Hn.
    destruct (known_or_unknown code l2) as [Hk2|Hu2];
      [|apply count_code_unknown in Hu2; lia].
    destruct (known_first_match code l2 Hk2) as (k1 & m' & k2 & Hfm2).
    exists k1, m', k2. split; [exact Hfm2|].
    apply (get_stats_first_match code (l1 ++ l2) (l1 ++ k1) m' k2).
    destruct Hfm as (_ & Hl1 & _). destruct Hfm2 as (-> & Hk1 & Hm').
    split; [rewrite <- app_assoc; reflexivity | split; [|exact Hm']].
    intros d Hin. apply in_app_or in Hin. destruct Hin; auto.
Qed.

(** C10: one delete request removes at most one record.  The records with
    other short codes are all kept, in their order; when no record has the
    requested code the store is left as it was; when n >= 1 records have it,
    exactly one of them, the first, is removed and n - 1 remain. *)
Theorem delete_shorten_removes_one (coll : Collection) (code : string) :
  others code (snd (delete_shorten code coll)) = others code coll /\
  (List.length coll <= S (List.length (snd (delete_shorten code coll))))%nat /\
  (count_code code coll = 0%nat -> snd (delete_shorten code coll) = coll) /\
  ((1 <= count_code code coll)%nat ->
   exists l1 m l2,
     first_match code coll l1 m l2 /\
     snd (delete_shorten code coll) = l1 ++ l2 /\
     S (List.length (l1 ++ l2)) = List.length coll /\
     count_code code (l1 ++ l2) = (count_code code coll - 1)%nat).
Proof.
  destruct (known_or_unknown code coll) as [Hk|Hu].
  - destruct (known_first_match code coll Hk) as (l1 & m & l2 & Hfm).
    rewrite (delete_shorten_first_match code coll l1 m l2 Hfm). cbn [snd].
    destruct (count_code_first_match code coll l1 m l2 Hfm) as [Hc Hc'].
    assert (Hlen : S (List.length (l1 ++ l2)) = List.length coll).
    { destruct Hfm as (-> & _). rewrite !length_app. simpl. lia. }
    split; [symmetry; apply (others_first_match code coll l1 m l2 Hfm)|].
    split; [lia|]. split; [intros Hz; lia|].
    intros _. exists l1, m, l2. repeat split; try apply Hfm; auto. lia.
  - rewrite (delete_shorten_unknown code coll Hu). cbn [snd].
    split; [reflexivity|]. split; [lia|]. split; [reflexivity|].
    intros Hc. apply count_code_unknown in Hu. lia.
Qed.

(** ** The click counter over the life of the store *)

Lemma clicks_change_nonneg (cs cs' : list Z) :
  clicks_change cs cs' -> Forall (Z.le 0) cs -> Forall (Z.le 0) cs'.
Proof.
  intros Hch. destruct Hch as [cs | cs | l1 c l2 | l1 c l2]; intros Hall.
  - exact Hall.
  - apply Forall_app. split; [exact Hall | repeat constructor; lia].
  - apply Forall_app in Hall. destruct Hall as [H1 H2].
    inversion H2; subst.
    apply Forall_app. split; [exact H1 | constructor; [lia | assumption]].
  - apply Forall_app in Hall. destruct Hall as [H1 H2].
    inversion H2; subst.
    apply Forall_app. split; assumption.
Qed.

Lemma app_clicks_change (env : Env) (r : Request) (coll : Collection) :
  clicks_change (map clicks coll) (map clicks (snd (app env r coll))).
Proof.
  destruct r as [body | code | code body | code | code |]; cbn [app].
  - destruct (body_url body) as [u|e] eqn:Hb;
      [destruct (falsy u) eqn:Hf|].
    + rewrite (post_shorten_falsy env body u coll Hb Hf). apply clicks_same.
    + rewrite (post_shorten_truthy env body u coll Hb Hf). cbn [snd].
      rewrite map_app. apply clicks_created.
    + rewrite (post_shorten_throws env body e coll Hb). apply clicks_same.
  - destruct (known_or_unknown code coll) as [Hk|Hu].
    + destruct (known_first_match code coll Hk) as (l1 & m & l2 & Hfm).
      rewrite (get_shorten_first_match code coll l1 m l2 Hfm). cbn [snd].
      destruct Hfm as (-> & _). rewrite !map_app. simpl.
      apply clicks_incremented.
    + rewrite (get_shorten_unknown code coll Hu). apply clicks_same.
  - destruct (body_url body) as [u|e] eqn:Hb;
      [destruct (falsy u) eqn:Hf|].
    + rewrite (put_shorten_falsy code body u coll Hb Hf). apply clicks_same.
    + destruct (known_or_unknown code coll) as [Hk|Hu].
      * destruct (known_first_match code coll Hk) as (l1 & m & l2 & Hfm).
        rewrite (put_shorten_first_match code body u coll l1 m l2 Hb Hf Hfm).
        cbn [snd]. destruct Hfm as (-> & _). rewrite !map_app. simpl.
        apply clicks_same.
      * rewrite (put_shorten_unknown code body u coll Hb Hf Hu).
        apply clicks_same.
    + rewrite (put_shorten_throws code body e coll Hb). apply clicks_same.
  - destruct (known_or_unknown code coll) as [Hk|Hu].
    + destruct (known_first_match code coll Hk) as (l1 & m & l2 & Hfm).
      rewrite (delete_shorten_first_match code coll l1 m l2 Hfm). cbn [snd].
      destruct Hfm as (-> & _). rewrite !map_app. simpl.
      apply clicks_deleted.
    + rewrite (delete_shorten_unknown code coll Hu). apply clicks_same.
  - destruct (known_or_unknown code coll) as [Hk|Hu].
    + destruct (known_first_match code coll Hk) as (l1 & m & l2 & Hfm).
      rewrite (get_stats_first_match code coll l1 m l2 Hfm).
      apply clicks_same.
    + rewrite (get_stats_unknown code coll Hu). apply clicks_same.
  - apply clicks_same.
Qed.

Lemma reachable_run (rs : list (Env * Request)) :
  forall coll, reachable coll -> reachable (run rs coll).
Proof.
  induction rs as [|[env r] rs IH]; intros coll Hr; simpl.
  - exact Hr.
  - apply IH, reachable_step, Hr.
Qed.

(** C9: in every store the application can reach from the empty one, the
    [clicks] of every record is a non-negative integer; and one request
    changes the click counters of the store in one of four ways only: not
    at all, by a new counter equal to 0 (creation), by adding 1 to one
    counter (redirect), or by dropping one counter with its record
    (deletion).  No request makes a counter smaller. *)
Theorem clicks_never_negative (coll : Collection) :
  reachable coll ->
  Forall (fun d => 0 <= clicks d) coll /\
  forall env r,
    clicks_change (map clicks coll) (map clicks (snd (app env r coll))).
Proof.
  intros Hr. split; [|intros env r; apply app_clicks_change].
  induction Hr as [|coll env r Hr IH].
  - constructor.
  - apply Forall_map with (f := clicks) (P := Z.le 0).
    apply (clicks_change_nonneg (map clicks coll)).
    + apply app_clicks_change.
    + apply Forall_map. exact IH.
Qed.

(** ** Not found *)

(** X1: the four handlers that take a short code answer 404 exactly when
    no record of the store has that code (the update handler when its url
    is a non-empty string); a delete request on an unknown code leaves the
    store as it was. *)
Theorem not_found_iff_unknown (coll : Collection) (code : string)
  (body : Body) (u : string) :
  body_url body = normal (js_string u) ->
  u <> "" ->
  (status (fst (get_shorten code coll)) = 404 <-> unknown code coll) /\
  (status (fst (get_stats code coll)) = 404 <-> unknown code coll) /\
  (status (fst (put_shorten code body coll)) = 404 <-> unknown code coll) /\
  (status (fst (delete_shorten code coll)) = 404 <-> unknown code coll) /\
  (unknown code coll ->
   delete_shorten code coll =
     (json_response (error_json not_found_json) 404, coll)).
Proof.
  intros Hb Hu. pose proof (falsy_string u Hu) as Hf.
  destruct (known_or_unknown code coll) as [Hk|Hunk].
  - destruct (known_first_match code coll Hk) as (l1 & m & l2 & Hfm).
    rewrite (get_shorten_first_match code coll l1 m l2 Hfm).
    rewrite (get_stats_first_match code coll l1 m l2 Hfm).
    rewrite (put_shorten_first_match code body _ coll l1 m l2 Hb Hf Hfm).
    rewrite (delete_shorten_first_match code coll l1 m l2 Hfm).
    cbn [fst status].
    assert (Hno : ~ unknown code coll)
      by (intros H; exact (known_unknown code coll Hk H)).
    assert (Hr : status (redirect_answer (url m)) <> 404)
      by (destruct (redirect_answer_status (url m)) as [H|H];
          rewrite H; discriminate).
    repeat split; try discriminate; intros H; contradiction.
  - rewrite (get_shorten_unknown code coll Hunk).
    rewrite (get_stats_unknown code coll Hunk).
    rewrite (put_shorten_unknown code body _ coll Hb Hf Hunk).
    rewrite (delete_shorten_unknown code coll Hunk).
    cbn [fst status]. repeat split; auto.
Qed.

(** ** The characters of a generated code *)

(** X2: for every length [n], and so also for 0, [generateShortCode(n)]
    returns a string of exactly [n] characters, all of them among a-z, A-Z
    and 0-9, whose k-th character is the character of [chars] at the index
    computed from the k-th random number, an index from 0 to 61. *)
Theorem generateShortCode_len_characters (rnd : nat -> spec_float) (n : nat) :
  (forall j, unit_interval (rnd j)) ->
  String.length (generateShortCode_len rnd n) = n /\
  all_chars alphanumeric (generateShortCode_len rnd n) = true /\
  forall k, (k < n)%nat ->
    exists i, random_index rnd k = js_int i /\ 0 <= i < 62 /\
      String.get k (generateShortCode_len rnd n)
      = String.get (Z.to_nat i) chars.
Proof.
  intros Hrnd. unfold generateShortCode_len.
  destruct (generateShortCode_loop_spec rnd Hrnd n 0%nat "") as [Hlen Hall].
  split; [exact Hlen | split; [exact Hall|]].
  intros k Hk. rewrite generateShortCode_loop_chars_at.
  change ("" ++ ?s)%string with s.
  apply (get_chars_at_seq _ (random_index_chars_index rnd Hrnd) n 0%nat k Hk).
Qed.

(** X3: two runs of [generateShortCode] return the same code exactly when
    their six random numbers select the same six indices of [chars]: the 62
    characters of [chars] are distinct, so nothing else makes two codes
    collide. *)
Theorem generateShortCode_collision (rnd rnd' : nat -> spec_float) :
  (forall j, unit_interval (rnd j)) ->
  (forall j, unit_interval (rnd' j)) ->
  generateShortCode rnd = generateShortCode rnd' <->
  (forall k, (k < 6)%nat -> random_index rnd k = random_index rnd' k).
Proof.
  intros Hrnd Hrnd'. unfold generateShortCode, generateShortCode_len.
  rewrite !generateShortCode_loop_chars_at.
  change ("" ++ ?s)%string with s.
  apply (chars_at_seq_eq_iff (random_index rnd) (random_index rnd')
           (random_index_chars_index rnd Hrnd)
           (random_index_chars_index rnd' Hrnd') 6 0%nat).
Qed.

(** ** Reading back what was written *)

(** X4: when the code generated for a create request with a non-empty url
    string is not yet in the store, the stats request on that code that
    follows reports the new record (the given url, 0 clicks, the creation
    time), and a redirect request on it is answered as [c.redirect] answers
    for the given url: with a redirect to it when the url has no character
    above U+00FF, no NUL, CR or LF and no whitespace at its ends. *)
Theorem create_then_read (env : Env) (body : Body) (u : string)
  (coll : Collection) :
  body_url body = normal (js_string u) ->
  u <> "" ->
  unknown (generateShortCode (Math_random env)) coll ->
  get_stats (generateShortCode (Math_random env))
    (snd (post_shorten env body coll))
  = (json_response
       (stats_json (generateShortCode (Math_random env)) (js_string u) 0
          (now env)) 200,
     snd (post_shorten env body coll)) /\
  fst (get_shorten (generateShortCode (Math_random env))
         (snd (post_shorten env body coll)))
  = redirect_answer (js_string u) /\
  (plain_location u = true ->
   fst (get_shorten (generateShortCode (Math_random env))
          (snd (post_shorten env body coll)))
   = redirect_response u 302).
Proof.
  intros Hb Hu Hunk.
  rewrite (post_shorten_truthy env body _ coll Hb (falsy_string u Hu)).
  cbn [snd].
  set (code := generateShortCode (Math_random env)) in *.
  set (new := {| shortCode := code; url := js_string u; clicks := 0;
                 createdAt := now env |}).
  assert (Hfm : first_match code (coll ++ [new]) coll new [])
    by (apply first_match_last; [exact Hunk | reflexivity]).
  rewrite (get_stats_first_match code _ coll new [] Hfm).
  rewrite (get_shorten_first_match code _ coll new [] Hfm).
  cbn [fst]. split; [reflexivity | split; [reflexivity|]].
  apply redirect_answer_plain.
Qed.

(** X5: a create request never changes what the stats and the redirect
    requests answer for a code that a record already has, also when the new
    record was given that very code: the older record keeps answering and
    the new one stays hidden behind it. *)
Theorem create_keeps_older_record (env : Env) (body : Body)
  (coll : Collection) (code : string) :
  known code coll ->
  fst (get_stats code (snd (post_shorten env body coll)))
  = fst (get_stats code coll) /\
  fst (get_shorten code (snd (post_shorten env body coll)))
  = fst (get_shorten code coll).
Proof.
  intros Hk.
  destruct (known_first_match code coll Hk) as (l1 & m & l2 & Hfm).
  destruct (body_url body) as [u|e] eqn:Hb; [destruct (falsy u) eqn:Hf|].
  - rewrite (post_shorten_falsy env body u coll Hb Hf). split; reflexivity.
  - rewrite (post_shorten_truthy env body u coll Hb Hf). cbn [snd].
    pose proof (first_match_append code coll l1 m l2
                  [{| shortCode := generateShortCode (Math_random env);
                      url := u; clicks := 0;
                      createdAt := now env |}] Hfm) as Hfm'.
    rewrite (get_stats_first_match code _ _ _ _ Hfm').
    rewrite (get_shorten_first_match code _ _ _ _ Hfm').
    rewrite (get_stats_first_match code _ _ _ _ Hfm).
    rewrite (get_shorten_first_match code _ _ _ _ Hfm).
    split; reflexivity.
  - rewrite (post_shorten_throws env body e coll Hb). split; reflexivity.
Qed.

(** X6: after an update request with a non-empty url string on a code that
    some record has, the stats request on that code reports the new url
    with the short code, click count and creation time of the first record
    with the code, and a redirect request is answered as [c.redirect]
    answers for the new url: with a redirect to it when the url has no
    character above U+00FF, no NUL, CR or LF and no whitespace at its
    ends. *)
Theorem update_then_read (coll : Collection) (code : string) (body : Body)
  (u : string) :
  body_url body = normal (js_string u) ->
  u <> "" ->
  known code coll ->
  exists l1 m l2,
    first_match code coll l1 m l2 /\
    get_stats code (snd (put_shorten code body coll))
    = (json_response
         (stats_json (shortCode m) (js_string u) (clicks m) (createdAt m)) 200,
       snd (put_shorten code body coll)) /\
    fst (get_shorten code (snd (put_shorten code body coll)))
    = redirect_answer (js_string u) /\
    (plain_location u = true ->
     fst (get_shorten code (snd (put_shorten code body coll)))
     = redirect_response u 302).
Proof.
  intros Hb Hu Hk.
  destruct (known_first_match code coll Hk) as (l1 & m & l2 & Hfm).
  exists l1, m, l2. split; [exact Hfm|].
  rewrite (put_shorten_first_match code body _ coll l1 m l2 Hb
             (falsy_string u Hu) Hfm).
  cbn [snd].
  pose proof (first_match_update (set_url (js_string u)) code coll l1 m l2 Hfm)
    as Hfm'.
  rewrite (get_stats_first_match code _ _ _ _ Hfm').
  rewrite (get_shorten_first_match code _ _ _ _ Hfm').
  cbn [fst apply_update url shortCode clicks createdAt].
  split; [reflexivity | split; [reflexivity|]].
  apply redirect_answer_plain.
Qed.

(** X7: the update handler is idempotent: sending the same update request a
    second time gives the same response as the first and leaves the store
    as the first left it.  In particular an update to the url a record
    already has is answered 200, not 404. *)
Theorem put_shorten_idempotent (coll : Collection) (code : string)
  (body : Body) :
  put_shorten code body (snd (put_shorten code body coll))
  = put_shorten code body coll.
Proof.
  destruct (body_url body) as [u|e] eqn:Hb; [destruct (falsy u) eqn:Hf|].
  - rewrite !(put_shorten_falsy code body u _ Hb Hf). reflexivity.
  - destruct (known_or_unknown code coll) as [Hk|Hunk].
    + destruct (known_first_match code coll Hk) as (l1 & m & l2 & Hfm).
      rewrite (put_shorten_first_match code body u coll l1 m l2 Hb Hf Hfm).
      cbn [snd].
      rewrite (put_shorten_first_match code body u _ l1 _ l2 Hb Hf
                 (first_match_update _ code coll l1 m l2 Hfm)).
      reflexivity.
    + rewrite (put_shorten_unknown code body u coll Hb Hf Hunk). cbn [snd].
      apply (put_shorten_unknown code body u coll Hb Hf Hunk).
  - rewrite !(put_shorten_throws code body e _ Hb). reflexivity.
Qed.

(** X17: of two update requests on the same code the last one wins: when
    the second url is a non-empty string, response and store after both are
    what the second request alone would have given, whatever the body of
    the first was. *)
Theorem put_shorten_last_wins (coll : Collection) (code : string)
  (body1 body2 : Body) (u2 : string) :
  body_url body2 = normal (js_string u2) ->
  u2 <> "" ->
  put_shorten code body2 (snd (put_shorten code body1 coll))
  = put_shorten code body2 coll.
Proof.
  intros Hb2 Hu2. pose proof (falsy_string u2 Hu2) as Hf2.
  destruct (body_url body1) as [u1|e] eqn:Hb1; [destruct (falsy u1) eqn:Hf1|].
  - rewrite (put_shorten_falsy code body1 u1 coll Hb1 Hf1). reflexivity.
  - destruct (known_or_unknown code coll) as [Hk|Hunk].
    + destruct (known_first_match code coll Hk) as (l1 & m & l2 & Hfm).
      rewrite (put_shorten_first_match code body1 u1 coll l1 m l2 Hb1 Hf1 Hfm).
      cbn [snd].
      rewrite (put_shorten_first_match code body2 _ _ l1 _ l2 Hb2 Hf2
                 (first_match_update _ code coll l1 m l2 Hfm)).
      rewrite (put_shorten_first_match code body2 _ coll l1 m l2 Hb2 Hf2 Hfm).
      reflexivity.
    + rewrite (put_shorten_unknown code body1 u1 coll Hb1 Hf1 Hunk).
      reflexivity.
  - rewrite (put_shorten_throws code body1 e coll Hb1). reflexivity.
Qed.

(** ** The same request several times *)

Lemma redirects_S (code : string) (n : nat) (coll : Collection) :
  redirects code (S n) coll = snd (get_shorten code (redirects code n coll)).
Proof. reflexivity. Qed.

Lemma deletes_S (code : string) (n : nat) (coll : Collection) :
  deletes code (S n) coll = snd (delete_shorten code (deletes code n coll)).
Proof. reflexivity. Qed.

Lemma redirects_first_match (code : string) (coll l1 : Collection)
  (m : UrlMapping) (l2 : Collection) (n : nat) :
  first_match code coll l1 m l2 ->
  redirects code n coll =
    l1 ++ {| shortCode := shortCode m; url := url m;
             clicks := clicks m + Z.of_nat n;
             createdAt := createdAt m |} :: l2.
Proof.
  intros Hfm. induction n as [|n IH].
  - destruct Hfm as (-> & _). unfold redirects. simpl.
    rewrite Z.add_0_r. destruct m; reflexivity.
  - rewrite redirects_S, IH.
    destruct Hfm as (_ & Hl1 & Hm).
    erewrite get_shorten_first_match
      by (split; [reflexivity | split; [exact Hl1 | exact Hm]]).
    cbn [snd apply_update shortCode url clicks createdAt].
    do 3 f_equal. lia.
Qed.

(** X8: [n] redirect requests in a row on a code that some record has add
    exactly [n] to the [clicks] of the first record with that code and
    change nothing else in the store; the stats request that follows
    reports the click count raised by [n], and the next redirect request
    gets the answer the first one got. *)
Theorem redirects_add_up (coll : Collection) (code : string) (n : nat) :
  known code coll ->
  exists l1 m l2,
    first_match code coll l1 m l2 /\
    redirects code n coll =
      l1 ++ {| shortCode := shortCode m; url := url m;
               clicks := clicks m + Z.of_nat n;
               createdAt := createdAt m |} :: l2 /\
    fst (get_stats code (redirects code n coll))
    = json_response
        (stats_json (shortCode m) (url m) (clicks m + Z.of_nat n)
           (createdAt m)) 200 /\
    fst (get_shorten code (redirects code n coll))
    = fst (get_shorten code coll).
Proof.
  intros Hk.
  destruct (known_first_match code coll Hk) as (l1 & m & l2 & Hfm).
  exists l1, m, l2. split; [exact Hfm|].
  rewrite (redirects_first_match code coll l1 m l2 n Hfm).
  split; [reflexivity|].
  rewrite (get_shorten_first_match code coll l1 m l2 Hfm).
  destruct Hfm as (_ & Hl1 & Hm).
  erewrite get_stats_first_match
    by (split; [reflexivity | split; [exact Hl1 | exact Hm]]).
  erewrite get_shorten_first_match
    by (split; [reflexivity | split; [exact Hl1 | exact Hm]]).
  split; reflexivity.
Qed.

Lemma delete_shorten_step (coll : Collection) (code : string) :
  count_code code (snd (delete_shorten code coll))
  = Nat.pred (count_code code coll) /\
  others code (snd (delete_shorten code coll)) = others code coll /\
  (List.length (snd (delete_shorten code coll))
   + Nat.min 1 (count_code code coll) = List.length coll)%nat.
Proof.
  destruct (known_or_unknown code coll) as [Hk|Hu].
  - destruct (known_first_match code coll Hk) as (l1 & m & l2 & Hfm).
    rewrite (delete_shorten_first_match code coll l1 m l2 Hfm). cbn [snd].
    destruct (count_code_first_match code coll l1 m l2 Hfm) as [Hc Hc'].
    rewrite Hc, Hc'. split; [reflexivity|].
    split; [symmetry; apply (others_first_match code coll l1 m l2 Hfm)|].
    destruct Hfm as (-> & _). rewrite !length_app. simpl. lia.
  - rewrite (delete_shorten_unknown code coll Hu). cbn [snd].
    apply count_code_unknown in Hu. rewrite Hu. simpl.
    split; [reflexivity | split; [reflexivity | lia]].
Qed.

(** X9: [n] delete requests in a row on one code remove its records one by
    one, first to last: of [c] records with the code, [c - n] remain (none
    when [n >= c]), the store shrinks by [min n c] records, and the records
    with other codes are all kept; after [c] deletes no record has the code
    and a further delete is answered 404. *)
Theorem deletes_remove_one_each (coll : Collection) (code : string) (n : nat) :
  count_code code (deletes code n coll) = (count_code code coll - n)%nat /\
  others code (deletes code n coll) = others code coll /\
  (List.length (deletes code n coll) + Nat.min n (count_code code coll)
   = List.length coll)%nat /\
  unknown code (deletes code (count_code code coll) coll) /\
  status (fst (delete_shorten code
                 (deletes code (count_code code coll) coll))) = 404.
Proof.
  assert (Hgen : forall k,
    count_code code (deletes code k coll) = (count_code code coll - k)%nat /\
    others code (deletes code k coll) = others code coll /\
    (List.length (deletes code k coll) + Nat.min k (count_code code coll)
     = List.length coll)%nat).
  { induction k as [|k (IHc & IHo & IHl)].
    - unfold deletes. simpl. repeat split; lia.
    - rewrite deletes_S.
      destruct (delete_shorten_step (deletes code k coll) code)
        as (Hc & Ho & Hl).
      rewrite Hc, Ho, IHc, IHo. rewrite IHc in Hl.
      repeat split; lia. }
  destruct (Hgen n) as (Hc & Ho & Hl).
  split; [exact Hc | split; [exact Ho | split; [exact Hl|]]].
  assert (Hu : unknown code (deletes code (count_code code coll) coll)).
  { apply count_code_unknown.
    destruct (Hgen (count_code code coll)) as (Hc0 & _). lia. }
  split; [exact Hu|].
  rewrite (delete_shorten_unknown code _ Hu). reflexivity.
Qed.

(** ** Records that share a code *)

(** X16: when several records share a code, a delete request on it removes
    the first of them and uncovers the second: the stats request, which
    reported the first record before, reports the second one after it, and
    a redirect request is then answered as [c.redirect] answers for the
    second record's url. *)
Theorem delete_uncovers_next (coll : Collection) (code : string) :
  (2 <= count_code code coll)%nat ->
  exists l1 m l2 k1 m' k2,
    first_match code coll l1 m l2 /\
    first_match code l2 k1 m' k2 /\
    snd (delete_shorten code coll) = l1 ++ l2 /\
    fst (get_stats code coll)
    = json_response
        (stats_json (shortCode m) (url m) (clicks m) (createdAt m)) 200 /\
    fst (get_stats code (snd (delete_shorten code coll)))
    = json_response
        (stats_json (shortCode m') (url m') (clicks m') (createdAt m')) 200 /\
    fst (get_shorten code (snd (delete_shorten code coll)))
    = redirect_answer (url m') /\
    (forall s, url m' = js_string s -> plain_location s = true ->
     fst (get_shorten code (snd (delete_shorten code coll)))
     = redirect_response s 302).
Proof.
  intros Hcount.
  destruct (known_or_unknown code coll) as [Hk|Hu];
    [|apply count_code_unknown in Hu; lia].
  destruct (known_first_match code coll Hk) as (l1 & m & l2 & Hfm).
  destruct (count_code_first_match code coll l1 m l2 Hfm) as [Hc _].
  destruct (known_or_unknown code l2) as [Hk2|Hu2];
    [|apply count_code_unknown in Hu2; lia].
  destruct (known_first_match code l2 Hk2) as (k1 & m' & k2 & Hfm2).
  exists l1, m, l2, k1, m', k2.
  assert (Hfm' : first_match code (l1 ++ l2) (l1 ++ k1) m' k2).
  { destruct Hfm as (_ & Hl1 & _). destruct Hfm2 as (-> & Hk1 & Hm').
    split; [rewrite <- app_assoc; reflexivity | split; [|exact Hm']].
    intros d Hin. apply in_app_or in Hin. destruct Hin; auto. }
  rewrite (delete_shorten_first_match code coll l1 m l2 Hfm). cbn [snd].
  rewrite (get_stats_first_match code coll l1 m l2 Hfm).
  rewrite (get_stats_first_match code _ _ _ _ Hfm').
  rewrite (get_shorten_first_match code _ _ _ _ Hfm').
  cbn [fst].
  split; [exact Hfm | split; [exact Hfm2|]].
  do 4 (split; [reflexivity|]).
  intros s -> Hp. apply redirect_answer_plain, Hp.
Qed.

(** ** Requests on one code and the records of the other codes *)

Lemma others_update (u : Update) (code : string) (l1 : Collection)
  (m : UrlMapping) (l2 : Collection) :
  shortCode m = code ->
  others code (l1 ++ apply_update u m :: l2) = others code (l1 ++ l2).
Proof.
  intros Hm. unfold others. rewrite !filter_app. cbn [filter matches].
  rewrite shortCode_apply_update, Hm, String.eqb_refl. reflexivity.
Qed.

Lemma find_others (c c' : string) (coll : Collection) :
  c <> c' ->
  find (matches (by_shortCode c')) coll
  = find (matches (by_shortCode c')) (others c coll).
Proof.
  intros Hne. unfold others.
  induction coll as [|d rest IH]; [reflexivity|].
  cbn [find filter matches].
  destruct (String.eqb_spec (shortCode d) c) as [Hd|Hd]; cbn [negb].
  - assert (Hd' : (shortCode d =? c')%string = false)
      by (apply String.eqb_neq; congruence).
    rewrite Hd'. exact IH.
  - cbn [find matches]. destruct (shortCode d =? c')%string; [reflexivity|].
    exact IH.
Qed.

Lemma path_request_keeps_others (env : Env) (r : Request) (c : string)
  (coll : Collection) :
  path_shortCode r = Some c ->
  others c (snd (app env r coll)) = others c coll.
Proof.
  intros Hr.
  destruct r as [body | code | code body | code | code |];
    try discriminate Hr; injection Hr as ->; cbn [app].
  - destruct (known_or_unknown c coll) as [Hk|Hu].
    + destruct (known_first_match c coll Hk) as (l1 & m & l2 & Hfm).
      rewrite (get_shorten_first_match c coll l1 m l2 Hfm). cbn [snd].
      rewrite (others_first_match c coll l1 m l2 Hfm).
      apply others_update, Hfm.
    + rewrite (get_shorten_unknown c coll Hu). reflexivity.
  - destruct (body_url body) as [u|e] eqn:Hb; [destruct (falsy u) eqn:Hf|].
    + rewrite (put_shorten_falsy c body u coll Hb Hf). reflexivity.
    + destruct (known_or_unknown c coll) as [Hk|Hu].
      * destruct (known_first_match c coll Hk) as (l1 & m & l2 & Hfm).
        rewrite (put_shorten_first_match c body u coll l1 m l2 Hb Hf Hfm).
        cbn [snd]. rewrite (others_first_match c coll l1 m l2 Hfm).
        apply others_update, Hfm.
      * rewrite (put_shorten_unknown c body u coll Hb Hf Hu). reflexivity.
    + rewrite (put_shorten_throws c body e coll Hb). reflexivity.
  - apply delete_shorten_step.
  - destruct (known_or_unknown c coll) as [Hk|Hu].
    + destruct (known_first_match c coll Hk) as (l1 & m & l2 & Hfm).
      rewrite (get_stats_first_match c coll l1 m l2 Hfm). reflexivity.
    + rewrite (get_stats_unknown c coll Hu). reflexivity.
Qed.

Lemma fst_get_stats_find (code : string) (coll coll' : Collection) :
  find (matches (by_shortCode code)) coll'
  = find (matches (by_shortCode code)) coll ->
  fst (get_stats code coll') = fst (get_stats code coll).
Proof.
  intros Hfind. unfold get_stats, route, get_stats_handler, bind, findOne.
  rewrite Hfind. destruct (find _ coll); reflexivity.
Qed.

Lemma fst_get_shorten_find (code : string) (coll coll' : Collection) :
  find (matches (by_shortCode code)) coll'
  = find (matches (by_shortCode code)) coll ->
  fst (get_shorten code coll') = fst (get_shorten code coll).
Proof.
  intros Hfind.
  unfold get_shorten, route, get_shorten_handler, bind, findOne, updateOne,
    lift.
  rewrite Hfind. destruct (find _ coll); [|reflexivity].
  destruct (update_first _ _ coll'), (update_first _ _ coll). reflexivity.
Qed.

(** X10: a redirect, update, delete or stats request on the code [c] keeps
    every record whose code is not [c], unchanged and in order, so what the
    stats and redirect requests answer for any other code [c'] is the same
    after it as before. *)
Theorem other_codes_untouched (env : Env) (r : Request) (c c' : string)
  (coll : Collection) :
  path_shortCode r = Some c ->
  c <> c' ->
  others c (snd (app env r coll)) = others c coll /\
  fst (get_stats c' (snd (app env r coll))) = fst (get_stats c' coll) /\
  fst (get_shorten c' (snd (app env r coll))) = fst (get_shorten c' coll).
Proof.
  intros Hr Hne.
  pose proof (path_request_keeps_others env r c coll Hr) as Ho.
  assert (Hfind : find (matches (by_shortCode c')) (snd (app env r coll))
                  = find (matches (by_shortCode c')) coll).
  { rewrite (find_others c c' _ Hne), Ho. symmetry.
    apply (find_others c c' coll Hne). }
  split; [exact Ho | split].
  - apply fst_get_stats_find, Hfind.
  - apply fst_get_shorten_find, Hfind.
Qed.

(** ** The size of the store and failed requests *)

(** X11: a request changes the number of records by at most one.  Only a
    create request whose body has a url that passes the test [!url] adds a
    record, only a delete request on a code that some record has removes
    one, and every other request leaves the number of records as it is. *)
Theorem app_size (env : Env) (r : Request) (coll : Collection) :
  match r with
  | POST_shorten body =>
      List.length (snd (app env r coll))
      = match body_url body with
        | normal u => if falsy u then List.length coll
                      else S (List.length coll)
        | throw _ => List.length coll
        end
  | DELETE_shorten code =>
      List.length coll
      = match count_code code coll with
        | O => List.length (snd (app env r coll))
        | S _ => S (List.length (snd (app env r coll)))
        end
  | _ => List.length (snd (app env r coll)) = List.length coll
  end.
Proof.
  destruct r as [body | code | code body | code | code |]; cbn [app].
  - destruct (body_url body) as [u|e] eqn:Hb; [destruct (falsy u) eqn:Hf|].
    + rewrite (post_shorten_falsy env body u coll Hb Hf). reflexivity.
    + rewrite (post_shorten_truthy env body u coll Hb Hf). cbn [snd].
      rewrite length_app. simpl. lia.
    + rewrite (post_shorten_throws env body e coll Hb). reflexivity.
  - destruct (known_or_unknown code coll) as [Hk|Hu].
    + destruct (known_first_match code coll Hk) as (l1 & m & l2 & Hfm).
      rewrite (get_shorten_first_match code coll l1 m l2 Hfm). cbn [snd].
      destruct Hfm as (-> & _). rewrite !length_app. reflexivity.
    + rewrite (get_shorten_unknown code coll Hu). reflexivity.
  - destruct (body_url body) as [u|e] eqn:Hb; [destruct (falsy u) eqn:Hf|].
    + rewrite (put_shorten_falsy code body u coll Hb Hf). reflexivity.
    + destruct (known_or_unknown code coll) as [Hk|Hu].
      * destruct (known_first_match code coll Hk) as (l1 & m & l2 & Hfm).
        rewrite (put_shorten_first_match code body u coll l1 m l2 Hb Hf Hfm).
        cbn [snd]. destruct Hfm as (-> & _). rewrite !length_app.
        reflexivity.
      * rewrite (put_shorten_unknown code body u coll Hb Hf Hu). reflexivity.
    + rewrite (put_shorten_throws code body e coll Hb). reflexivity.
  - destruct (delete_shorten_step coll code) as (_ & _ & Hl).
    destruct (count_code code coll); simpl in Hl; lia.
  - destruct (known_or_unknown code coll) as [Hk|Hu].
    + destruct (known_first_match code coll Hk) as (l1 & m & l2 & Hfm).
      rewrite (get_stats_first_match code coll l1 m l2 Hfm). reflexivity.
    + rewrite (get_stats_unknown code coll Hu). reflexivity.
  - reflexivity.
Qed.

(** X12: the application answers with no status other than 200, 302, 400,
    404 and 500.  A request answered 400 or 404 has changed nothing in the
    store.  A request answered 500 has changed nothing either, unless it is
    a redirect request on a code that some record has: the [clicks] of the
    first record with the code was then incremented before [c.redirect]
    threw. *)
Theorem errors_change_nothing (env : Env) (r : Request) (coll : Collection) :
  (status (fst (app env r coll)) = 400 \/
   status (fst (app env r coll)) = 404 ->
   snd (app env r coll) = coll) /\
  (status (fst (app env r coll)) = 200 \/
   status (fst (app env r coll)) = 302 \/
   status (fst (app env r coll)) = 400 \/
   status (fst (app env r coll)) = 404 \/
   status (fst (app env r coll)) = 500) /\
  (status (fst (app env r coll)) = 500 ->
   snd (app env r coll) = coll \/
   exists code l1 m l2,
     r = GET_shorten code /\ first_match code coll l1 m l2 /\
     snd (app env r coll) =
       l1 ++ {| shortCode := shortCode m; url := url m;
                clicks := clicks m + 1; createdAt := createdAt m |} :: l2).
Proof.
  destruct r as [body | code | code body | code | code |]; cbn [app].
  - destruct (body_url body) as [u|e] eqn:Hb; [destruct (falsy u) eqn:Hf|].
    + rewrite (post_shorten_falsy env body u coll Hb Hf).
      cbn [fst snd status]. repeat split; auto.
    + rewrite (post_shorten_truthy env body u coll Hb Hf).
      cbn [fst snd status].
      split; [intros [H|H]; discriminate H|].
      split; [auto | discriminate].
    + rewrite (post_shorten_throws env body e coll Hb).
      cbn [fst snd status internal_server_error]. repeat split; auto 6.
  - destruct (known_or_unknown code coll) as [Hk|Hu].
    + destruct (known_first_match code coll Hk) as (l1 & m & l2 & Hfm).
      rewrite (get_shorten_first_match code coll l1 m l2 Hfm).
      cbn [fst snd].
      destruct (redirect_answer_status (url m)) as [Hs|Hs]; rewrite Hs.
      * split; [intros [H|H]; discriminate H|].
        split; [auto | discriminate].
      * split; [intros [H|H]; discriminate H|].
        split; [auto 6|]. intros _. right.
        exists code, l1, m, l2. repeat split; try apply Hfm.
    + rewrite (get_shorten_unknown code coll Hu). cbn [fst snd status].
      repeat split; auto 6.
  - destruct (body_url body) as [u|e] eqn:Hb; [destruct (falsy u) eqn:Hf|].
    + rewrite (put_shorten_falsy code body u coll Hb Hf).
      cbn [fst snd status]. repeat split; auto.
    + destruct (known_or_unknown code coll) as [Hk|Hu].
      * destruct (known_first_match code coll Hk) as (l1 & m & l2 & Hfm).
        rewrite (put_shorten_first_match code body u coll l1 m l2 Hb Hf Hfm).
        cbn [fst snd status].
        split; [intros [H|H]; discriminate H|].
        split; [auto | discriminate].
      * rewrite (put_shorten_unknown code body u coll Hb Hf Hu).
        cbn [fst snd status]. repeat split; auto 6.
    + rewrite (put_shorten_throws code body e coll Hb).
      cbn [fst snd status internal_server_error]. repeat split; auto 6.
  - destruct (known_or_unknown code coll) as [Hk|Hu].
    + destruct (known_first_match code coll Hk) as (l1 & m & l2 & Hfm).
      rewrite (delete_shorten_first_match code coll l1 m l2 Hfm).
      cbn [fst snd status].
      split; [intros [H|H]; discriminate H|].
      split; [auto | discriminate].
    + rewrite (delete_shorten_unknown code coll Hu).
      cbn [fst snd status]. repeat split; auto 6.
  - destruct (known_or_unknown code coll) as [Hk|Hu].
    + destruct (known_first_match code coll Hk) as (l1 & m & l2 & Hfm).
      rewrite (get_stats_first_match code coll l1 m l2 Hfm).
      cbn [fst snd status]. repeat split; auto.
    + rewrite (get_stats_unknown code coll Hu).
      cbn [fst snd status]. repeat split; auto 6.
  - cbn. repeat split; auto.
Qed.

(** ** Invariants of the stored records *)

Section Preservation.

Variable P : UrlMapping -> Prop.
Variable good : Env -> Prop.

Hypothesis P_inc : forall d n, P d -> P (apply_update (inc_clicks n) d).
Hypothesis P_set :
  forall d u, falsy u = false -> P d -> P (apply_update (set_url u) d).
Hypothesis P_new :
  forall env u, good env -> falsy u = false ->
    P {| shortCode := generateShortCode (Math_random env); url := u;
         clicks := 0; createdAt := now env |}.

Lemma Forall_first_match_replace (code : string) (coll l1 : Collection)
  (m m' : UrlMapping) (l2 : Collection) :
  first_match code coll l1 m l2 -> (P m -> P m') ->
  Forall P coll -> Forall P (l1 ++ m' :: l2).
Proof.
  intros (-> & _) Hmm' Hall.
  apply Forall_app in Hall. destruct Hall as [H1 H2].
  inversion H2; subst.
  apply Forall_app. split; [exact H1 | constructor; auto].
Qed.

Lemma app_preserves (env : Env) (r : Request) (coll : Collection) :
  good env -> Forall P coll -> Forall P (snd (app env r coll)).
Proof.
  intros Hgood Hall.
  destruct r as [body | code | code body | code | code |]; cbn [app].
  - destruct (body_url body) as [u|e] eqn:Hb; [destruct (falsy u) eqn:Hf|].
    + rewrite (post_shorten_falsy env body u coll Hb Hf). exact Hall.
    + rewrite (post_shorten_truthy env body u coll Hb Hf). cbn [snd].
      apply Forall_app. split; [exact Hall|].
      constructor; [|constructor].
      apply P_new; assumption.
    + rewrite (post_shorten_throws env body e coll Hb). exact Hall.
  - destruct (known_or_unknown code coll) as [Hk|Hu].
    + destruct (known_first_match code coll Hk) as (l1 & m & l2 & Hfm).
      rewrite (get_shorten_first_match code coll l1 m l2 Hfm). cbn [snd].
      apply (Forall_first_match_replace code coll l1 m _ l2 Hfm);
        [apply P_inc | exact Hall].
    + rewrite (get_shorten_unknown code coll Hu). exact Hall.
  - destruct (body_url body) as [u|e] eqn:Hb; [destruct (falsy u) eqn:Hf|].
    + rewrite (put_shorten_falsy code body u coll Hb Hf). exact Hall.
    + destruct (known_or_unknown code coll) as [Hk|Hu].
      * destruct (known_first_match code coll Hk) as (l1 & m & l2 & Hfm).
        rewrite (put_shorten_first_match code body u coll l1 m l2 Hb Hf Hfm).
        cbn [snd].
        apply (Forall_first_match_replace code coll l1 m _ l2 Hfm);
          [apply P_set, Hf | exact Hall].
      * rewrite (put_shorten_unknown code body u coll Hb Hf Hu). exact Hall.
    + rewrite (put_shorten_throws code body e coll Hb). exact Hall.
  - destruct (known_or_unknown code coll) as [Hk|Hu].
    + destruct (known_first_match code coll Hk) as (l1 & m & l2 & Hfm).
      rewrite (delete_shorten_first_match code coll l1 m l2 Hfm). cbn [snd].
      destruct Hfm as (-> & _).
      apply Forall_app in Hall. destruct Hall as [H1 H2].
      inversion H2; subst. apply Forall_app. split; assumption.
    + rewrite (delete_shorten_unknown code coll Hu). exact Hall.
  - destruct (known_or_unknown code coll) as [Hk|Hu].
    + destruct (known_first_match code coll Hk) as (l1 & m & l2 & Hfm).
      rewrite (get_stats_first_match code coll l1 m l2 Hfm). exact Hall.
    + rewrite (get_stats_unknown code coll Hu). exact Hall.
  - exact Hall.
Qed.

Lemma reachable_with_preserves (coll : Collection) :
  reachable_with good coll -> Forall P coll.
Proof.
  intros Hr. induction Hr as [|coll env r Hgood Hr IH].
  - constructor.
  - apply app_preserves; assumption.
Qed.

End Preservation.

Lemma reachable_reachable_with (coll : Collection) :
  reachable coll -> reachable_with (fun _ => True) coll.
Proof.
  intros Hr. induction Hr as [|coll env r Hr IH].
  - constructor.
  - constructor; [exact I | exact IH].
Qed.

Lemma reachable_with_run (good : Env -> Prop) (rs : list (Env * Request)) :
  Forall (fun p => good (fst p)) rs ->
  forall coll, reachable_with good coll -> reachable_with good (run rs coll).
Proof.
  induction rs as [|[env r] rs IH]; intros Hgood coll Hr; simpl.
  - exact Hr.
  - inversion Hgood; subst. apply IH; [assumption|].
    constructor; assumption.
Qed.

(** X13: in every store the application can reach from the empty one, the
    url of every record is a value that passes the test [!url]; in
    particular no record has the empty string as url: both the create and
    the update handler refuse such a url before they write. *)
Theorem stored_urls_never_empty (coll : Collection) :
  reachable coll ->
  Forall (fun d => falsy (url d) = false) coll /\
  Forall (fun d => url d <> js_string "" /\ url d <> js_undefined /\
                   url d <> js_null) coll.
Proof.
  intros Hr.
  assert (Hall : Forall (fun d => falsy (url d) = false) coll).
  { apply (reachable_with_preserves (fun d => falsy (url d) = false)
             (fun _ => True)).
    - intros d n H. exact H.
    - intros d u Hu _. exact Hu.
    - intros env u _ Hu. exact Hu.
    - apply reachable_reachable_with, Hr. }
  split; [exact Hall|].
  apply Forall_impl with (2 := Hall).
  intros d Hd. repeat split; intros H; rewrite H in Hd; discriminate Hd.
Qed.

(** X14: when [Math.random] keeps to the interval [0, 1), every record of
    every store the application can reach has a short code of six
    characters among a-z, A-Z and 0-9 (an update never touches the code); a
    redirect, stats, update or delete request on a string of any other
    shape is therefore answered 404. *)
Theorem stored_codes_shaped (coll : Collection) :
  reachable_with fair coll ->
  Forall (fun d => code_shaped (shortCode d)) coll /\
  forall code body u,
    ~ code_shaped code ->
    body_url body = normal (js_string u) -> u <> "" ->
    get_shorten code coll = (text_response not_found_text 404, coll) /\
    get_stats code coll =
      (json_response (error_json not_found_json) 404, coll) /\
    put_shorten code body coll =
      (json_response (error_json not_found_json) 404, coll) /\
    delete_shorten code coll =
      (json_response (error_json not_found_json) 404, coll).
Proof.
  intros Hr.
  assert (Hall : Forall (fun d => code_shaped (shortCode d)) coll).
  { apply (reachable_with_preserves
             (fun d => code_shaped (shortCode d)) fair).
    - intros d n H. exact H.
    - intros d u _ H. exact H.
    - intros env u Hfair _. cbn [shortCode].
      apply generateShortCode_spec, Hfair.
    - exact Hr. }
  split; [exact Hall|].
  intros code body u Hshape Hb Hu.
  assert (Hunk : unknown code coll).
  { intros d Hin Hd. apply Hshape. rewrite <- Hd.
    rewrite Forall_forall in Hall. apply Hall, Hin. }
  split; [apply get_shorten_unknown, Hunk|].
  split; [apply get_stats_unknown, Hunk|].
  split; [apply (put_shorten_unknown code body _ coll Hb
                   (falsy_string u Hu) Hunk)|].
  apply delete_shorten_unknown, Hunk.
Qed.

Lemma app_identity_change (env : Env) (r : Request) (coll : Collection) :
  identity_change (map identity coll) (map identity (snd (app env r coll))).
Proof.
  destruct r as [body | code | code body | code | code |]; cbn [app].
  - destruct (body_url body) as [u|e] eqn:Hb; [destruct (falsy u) eqn:Hf|].
    + rewrite (post_shorten_falsy env body u coll Hb Hf). apply identity_same.
    + rewrite (post_shorten_truthy env body u coll Hb Hf). cbn [snd].
      rewrite map_app. apply identity_created.
    + rewrite (post_shorten_throws env body e coll Hb). apply identity_same.
  - destruct (known_or_unknown code coll) as [Hk|Hu].
    + destruct (known_first_match code coll Hk) as (l1 & m & l2 & Hfm).
      rewrite (get_shorten_first_match code coll l1 m l2 Hfm). cbn [snd].
      destruct Hfm as (-> & _). rewrite !map_app. apply identity_same.
    + rewrite (get_shorten_unknown code coll Hu). apply identity_same.
  - destruct (body_url body) as [u|e] eqn:Hb; [destruct (falsy u) eqn:Hf|].
    + rewrite (put_shorten_falsy code body u coll Hb Hf). apply identity_same.
    + destruct (known_or_unknown code coll) as [Hk|Hu].
      * destruct (known_first_match code coll Hk) as (l1 & m & l2 & Hfm).
        rewrite (put_shorten_first_match code body u coll l1 m l2 Hb Hf Hfm).
        cbn [snd]. destruct Hfm as (-> & _). rewrite !map_app.
        apply identity_same.
      * rewrite (put_shorten_unknown code body u coll Hb Hf Hu).
        apply identity_same.
    + rewrite (put_shorten_throws code body e coll Hb). apply identity_same.
  - destruct (known_or_unknown code coll) as [Hk|Hu].
    + destruct (known_first_match code coll Hk) as (l1 & m & l2 & Hfm).
      rewrite (delete_shorten_first_match code coll l1 m l2 Hfm). cbn [snd].
      destruct Hfm as (-> & _). rewrite !map_app. apply identity_deleted.
    + rewrite (delete_shorten_unknown code coll Hu). apply identity_same.
  - destruct (known_or_unknown code coll) as [Hk|Hu].
    + destruct (known_first_match code coll Hk) as (l1 & m & l2 & Hfm).
      rewrite (get_stats_first_match code coll l1 m l2 Hfm).
      apply identity_same.
    + rewrite (get_stats_unknown code coll Hu). apply identity_same.
  - apply identity_same.
Qed.

Lemma path_request_keeps_identity (env : Env) (r : Request)
  (coll : Collection) :
  path_shortCode r <> None -> (forall code, r <> DELETE_shorten code) ->
  map identity (snd (app env r coll)) = map identity coll.
Proof.
  intros Hpath Hnodel.
  destruct r as [body | code | code body | code | code |];
    cbn [app]; try (exfalso; apply Hpath; reflexivity).
  - destruct (known_or_unknown code coll) as [Hk|Hu].
    + destruct (known_first_match code coll Hk) as (l1 & m & l2 & Hfm).
      rewrite (get_shorten_first_match code coll l1 m l2 Hfm). cbn [snd].
      destruct Hfm as (-> & _). rewrite !map_app. reflexivity.
    + rewrite (get_shorten_unknown code coll Hu). reflexivity.
  - destruct (body_url body) as [u|e] eqn:Hb; [destruct (falsy u) eqn:Hf|].
    + rewrite (put_shorten_falsy code body u coll Hb Hf). reflexivity.
    + destruct (known_or_unknown code coll) as [Hk|Hu].
      * destruct (known_first_match code coll Hk) as (l1 & m & l2 & Hfm).
        rewrite (put_shorten_first_match code body u coll l1 m l2 Hb Hf Hfm).
        cbn [snd]. destruct Hfm as (-> & _). rewrite !map_app.
        reflexivity.
      * rewrite (put_shorten_unknown code body u coll Hb Hf Hu). reflexivity.
    + rewrite (put_shorten_throws code body e coll Hb). reflexivity.
  - exfalso. apply (Hnodel code). reflexivity.
  - destruct (known_or_unknown code coll) as [Hk|Hu].
    + destruct (known_first_match code coll Hk) as (l1 & m & l2 & Hfm).
      rewrite (get_stats_first_match code coll l1 m l2 Hfm). reflexivity.
    + rewrite (get_stats_unknown code coll Hu). reflexivity.
Qed.

(** X15: no request changes the short code or the creation time of a
    record that exists.  The list of (short code, creation time) pairs of
    the store is changed by one request in one of three ways only: not at
    all, by one new pair at the end (creation, with the time of the
    request), or by the removal of one pair (deletion). *)
Theorem identity_immutable (env : Env) (r : Request) (coll : Collection) :
  identity_change (map identity coll) (map identity (snd (app env r coll))) /\
  (forall body u, r = POST_shorten body ->
     body_url body = normal u -> falsy u = false ->
     map identity (snd (app env r coll))
     = map identity coll ++ [(generateShortCode (Math_random env), now env)]) /\
  (path_shortCode r <> None -> (forall code, r <> DELETE_shorten code) ->
     map identity (snd (app env r coll)) = map identity coll).
Proof.
  split; [apply app_identity_change|]. split.
  - intros body u -> Hb Hf. cbn [app].
    rewrite (post_shorten_truthy env body u coll Hb Hf). cbn [snd].
    rewrite map_app. reflexivity.
  - apply path_request_keeps_identity.
Qed.

End Runtime.

(** ** The theorems on sample data *)

Lemma sample_env_fair : fair sample_env.
Proof.
  intros i. do 5 (destruct i as [|i]; [vm_compute; auto|]).
  vm_compute; auto.
Defined.

Lemma zero_env_fair : fair zero_env.
Proof. intros i. exact I. Defined.

Lemma low_env_fair : fair low_env.
Proof. intros i. vm_compute; auto. Defined.

Lemma other_env_fair : fair other_env.
Proof. intros i. vm_compute; auto. Defined.

Lemma two_mappings_unknown : unknown "nobody" two_mappings.
Proof.
  intros d [<-|[<-|[]]]; discriminate.
Defined.

Lemma two_mappings_known : known "Ab3dE9" two_mappings.
Proof.
  exists example_com. split; [right; left; reflexivity | reflexivity].
Defined.

Lemma twice_created_known : known "aaaaaa" (twice_created sample_ToString).
Proof.
  eexists. split; [left; reflexivity | reflexivity].
Defined.

Lemma fairly_created_reachable :
  reachable_with sample_ToString fair (fairly_created sample_ToString).
Proof.
  unfold fairly_created. apply reachable_with_run.
  - constructor; [exact sample_env_fair|].
    constructor; [exact low_env_fair|].
    constructor; [exact low_env_fair | constructor].
  - constructor.
Defined.

(** C1, as stated, fails: a create request stores a url with a line feed
    inside; the redirect request on its code is then answered 500, not
    with a redirect, although a record has the code, and the [clicks] of
    the record has been incremented. *)
Lemma get_shorten_redirects_counterexample :
  reachable sample_ToString (with_two_lines sample_ToString) /\
  known "aaaaaa" (with_two_lines sample_ToString) /\
  get_shorten sample_ToString "aaaaaa" (with_two_lines sample_ToString) =
    (text_response "Internal Server Error" 500,
     [{| shortCode := "aaaaaa"; url := js_string two_lines;
         clicks := 1; createdAt := 0 |}]) /\
  forall location s,
    fst (get_shorten sample_ToString "aaaaaa"
           (with_two_lines sample_ToString))
    <> redirect_response location s.
Proof.
  split; [|split; [|split]].
  - unfold with_two_lines. apply reachable_run, reachable_empty.
  - eexists. split; [left; reflexivity | reflexivity].
  - reflexivity.
  - intros location s. discriminate.
Qed.

Lemma get_shorten_redirects_and_counts_witness :
  get_shorten sample_ToString "nobody" two_mappings
  = (text_response not_found_text 404, two_mappings) /\
  fst (get_shorten sample_ToString "uNi0de" [unicode_mapping])
  = redirect_response "https://example.com/%E6%97%A5%E6%9C%AC" 302 /\
  exists l1 m l2,
    first_match "Ab3dE9" two_mappings l1 m l2 /\
    snd (get_shorten sample_ToString "Ab3dE9" two_mappings) =
      l1 ++ {| shortCode := shortCode m; url := url m;
               clicks := clicks m + 1; createdAt := createdAt m |} :: l2 /\
    (forall s, url m = js_string s -> plain_location s = true ->
     fst (get_shorten sample_ToString "Ab3dE9" two_mappings)
     = redirect_response s 302) /\
    (clicks m = 0 ->
     snd (get_shorten sample_ToString "Ab3dE9"
            (snd (get_shorten sample_ToString "Ab3dE9" two_mappings))) =
       l1 ++ {| shortCode := shortCode m; url := url m;
                clicks := 2; createdAt := createdAt m |} :: l2).
Proof.
  split; [|split].
  - apply (proj1 (get_shorten_redirects_and_counts sample_ToString
                    two_mappings "nobody")).
    exact two_mappings_unknown.
  - destruct (proj2 (get_shorten_redirects_and_counts sample_ToString
                       [unicode_mapping] "uNi0de"))
      as (l1 & m & l2 & Hfm & _ & _ & _ & _ & Hencoded & _).
    + exists unicode_mapping. split; [left; reflexivity | reflexivity].
    + destruct Hfm as (Heq & _).
      destruct l1 as [|d l1]; simpl in Heq.
      * injection Heq as <- _.
        apply (Hencoded "https://example.com/日本"); reflexivity.
      * injection Heq as _ Heq. destruct l1; discriminate Heq.
  - destruct (proj2 (get_shorten_redirects_and_counts sample_ToString
                       two_mappings "Ab3dE9") two_mappings_known)
      as (l1 & m & l2 & Hfm & Hstore & _ & _ & Hplain & _ & _ & Htwice).
    exists l1, m, l2. repeat split; try apply Hfm; assumption.
Defined.

Lemma get_stats_reports_record_witness :
  get_stats "nobody" two_mappings
  = (json_response (error_json not_found_json) 404, two_mappings) /\
  exists l1 m l2,
    first_match "Ab3dE9" two_mappings l1 m l2 /\
    get_stats "Ab3dE9" two_mappings =
      (json_response
         (stats_json (shortCode m) (url m) (clicks m) (createdAt m)) 200,
       two_mappings).
Proof.
  split.
  - apply (proj1 (get_stats_reports_record two_mappings "nobody")).
    exact two_mappings_unknown.
  - apply (proj2 (get_stats_reports_record two_mappings "Ab3dE9")).
    exact two_mappings_known.
Defined.

Lemma post_shorten_creates_mapping_witness :
  exists code,
    post_shorten sample_env (url_body (js_string "https://example.com"))
      two_mappings =
      (json_response (shorten_json code (js_string "https://example.com")) 200,
       two_mappings ++ [{| shortCode := code;
                           url := js_string "https://example.com";
                           clicks := 0; createdAt := now sample_env |}]) /\
    String.length code = 6%nat /\
    all_chars alphanumeric code = true.
Proof.
  apply (post_shorten_creates_mapping sample_env
           (url_body (js_string "https://example.com")) "https://example.com"
           two_mappings).
  - reflexivity.
  - discriminate.
  - exact sample_env_fair.
Defined.

(** C6, as stated, fails: a create request with the body [{ "url": 0 }] is
    answered 400, and no record is inserted, although the url field of the
    body is neither missing nor the empty string. *)
Lemma post_shorten_rejects_counterexample :
  body_url (url_body (js_number (S754_zero false)))
  = normal (js_number (S754_zero false)) /\
  post_shorten sample_env (url_body (js_number (S754_zero false)))
    two_mappings
  = (json_response (error_json url_required) 400, two_mappings) /\
  ~ (forall env body coll,
       status (fst (post_shorten env body coll)) = 400 <->
       body_url body = normal js_undefined \/
       body_url body = normal (js_string "")).
Proof.
  split; [reflexivity | split; [reflexivity|]].
  intros H.
  destruct (proj1 (H sample_env (url_body (js_number (S754_zero false)))
                     two_mappings) eq_refl) as [Hu|Hu];
    discriminate Hu.
Qed.

Lemma post_shorten_rejects_missing_url_witness :
  post_shorten sample_env (parsed (js_object [])) two_mappings
  = (json_response (error_json url_required) 400, two_mappings) /\
  post_shorten sample_env (url_body js_null) two_mappings
  = (json_response (error_json url_required) 400, two_mappings) /\
  post_shorten sample_env malformed two_mappings
  = (internal_server_error, two_mappings) /\
  status (fst (post_shorten sample_env
                 (url_body (js_string "https://example.com"))
                 two_mappings)) <> 400.
Proof.
  split; [|split; [|split]].
  - apply (proj1 (proj2 (post_shorten_rejects_missing_url sample_env
                           (parsed (js_object [])) two_mappings))
             js_undefined); reflexivity.
  - apply (proj1 (proj2 (post_shorten_rejects_missing_url sample_env
                           (url_body js_null) two_mappings))
             js_null); reflexivity.
  - apply (proj1 (proj2 (proj2 (post_shorten_rejects_missing_url sample_env
                                  malformed two_mappings)))
             SyntaxError); reflexivity.
  - intros H.
    apply (proj1 (post_shorten_rejects_missing_url sample_env
                    (url_body (js_string "https://example.com"))
                    two_mappings)) in H.
    destruct H as (u & Hu & Hf). injection Hu as <-. discriminate Hf.
Defined.

Lemma put_shorten_replaces_url_only_witness :
  exists l1 m l2,
    first_match "Ab3dE9" two_mappings l1 m l2 /\
    put_shorten "Ab3dE9" (url_body (js_string "https://example.org"))
      two_mappings =
      (json_response (message_json url_updated) 200,
       l1 ++ {| shortCode := shortCode m;
                url := js_string "https://example.org";
                clicks := clicks m; createdAt := createdAt m |} :: l2).
Proof.
  apply (put_shorten_replaces_url_only two_mappings "Ab3dE9"
           (url_body (js_string "https://example.org"))
           "https://example.org").
  - reflexivity.
  - discriminate.
  - exact two_mappings_known.
Defined.

Lemma put_shorten_unknown_code_witness :
  put_shorten "nobody" (url_body (js_string "https://example.org"))
    two_mappings =
    (json_response (error_json not_found_json) 404, two_mappings).
Proof.
  apply (put_shorten_unknown_code two_mappings "nobody"
           (url_body (js_string "https://example.org"))
           "https://example.org").
  - reflexivity.
  - discriminate.
  - exact two_mappings_unknown.
Defined.

Lemma put_shorten_validates_first_witness :
  unknown "nobody" two_mappings /\
  (put_shorten "nobody" (parsed (js_object [])) two_mappings =
     (json_response (error_json url_required) 400, two_mappings) /\
   status (fst (put_shorten "nobody" (parsed (js_object [])) two_mappings))
   <> 404) /\
  (put_shorten "Ab3dE9" (url_body (js_string "")) two_mappings =
     (json_response (error_json url_required) 400, two_mappings) /\
   status (fst (put_shorten "Ab3dE9" (url_body (js_string "")) two_mappings))
   <> 404).
Proof.
  split; [exact two_mappings_unknown | split].
  - apply (put_shorten_validates_first two_mappings "nobody"
             (parsed (js_object []))).
    left; reflexivity.
  - apply (put_shorten_validates_first two_mappings "Ab3dE9"
             (url_body (js_string ""))).
    right; reflexivity.
Defined.

(** C3, as stated, fails: in a store built by two create requests that drew
    the same short code, a delete request on that code is answered 200 and
    the stats request that follows is answered 200 as well, not 404. *)
Lemma delete_then_stats_counterexample :
  reachable sample_ToString (twice_created sample_ToString) /\
  known "aaaaaa" (twice_created sample_ToString) /\
  status (fst (delete_shorten "aaaaaa" (twice_created sample_ToString)))
  = 200 /\
  get_stats "aaaaaa"
    (snd (delete_shorten "aaaaaa" (twice_created sample_ToString))) =
    (json_response
       (stats_json "aaaaaa" (js_string "https://example.org") 0 0) 200,
     [{| shortCode := "aaaaaa"; url := js_string "https://example.org";
         clicks := 0; createdAt := 0 |}]) /\
  ~ (forall coll code,
        known code coll ->
        status (fst (delete_shorten code coll)) = 200 /\
        status (fst (get_stats code (snd (delete_shorten code coll)))) = 404).
Proof.
  split; [|split; [exact twice_created_known
                  | split; [reflexivity | split; [reflexivity|]]]].
  - unfold twice_created. apply reachable_run, reachable_empty.
  - intros H.
    destruct (H (twice_created sample_ToString) "aaaaaa" twice_created_known)
      as [_ H404].
    vm_compute in H404. discriminate H404.
Qed.

Lemma delete_then_stats_witness :
  (exists l1 m l2,
      first_match "Ab3dE9" two_mappings l1 m l2 /\
      delete_shorten "Ab3dE9" two_mappings =
        (json_response (message_json url_deleted) 200, l1 ++ l2) /\
      get_stats "Ab3dE9" (l1 ++ l2) =
        (json_response (error_json not_found_json) 404, l1 ++ l2)) /\
  (exists l1 m l2 k1 m' k2,
      first_match "aaaaaa" (twice_created sample_ToString) l1 m l2 /\
      delete_shorten "aaaaaa" (twice_created sample_ToString) =
        (json_response (message_json url_deleted) 200, l1 ++ l2) /\
      first_match "aaaaaa" l2 k1 m' k2 /\
      get_stats "aaaaaa" (l1 ++ l2) =
        (json_response
           (stats_json (shortCode m') (url m') (clicks m') (createdAt m'))
           200,
         l1 ++ l2)).
Proof.
  split.
  - destruct (delete_then_stats two_mappings "Ab3dE9" two_mappings_known)
      as (l1 & m & l2 & Hfm & Hdel & Hone & _).
    exists l1, m, l2.
    split; [exact Hfm | split; [exact Hdel | apply Hone; reflexivity]].
  - destruct (delete_then_stats (twice_created sample_ToString) "aaaaaa"
                twice_created_known)
      as (l1 & m & l2 & Hfm & Hdel & _ & Hmany).
    destruct Hmany as (k1 & m' & k2 & Hfm2 & Hstats); [discriminate|].
    exists l1, m, l2, k1, m', k2.
    split; [exact Hfm | split; [exact Hdel | split; assumption]].
Defined.

Lemma delete_shorten_removes_one_witness :
  snd (delete_shorten "nobody" two_mappings) = two_mappings /\
  exists l1 m l2,
    first_match "aaaaaa" (twice_created sample_ToString) l1 m l2 /\
    snd (delete_shorten "aaaaaa" (twice_created sample_ToString)) = l1 ++ l2 /\
    S (List.length (l1 ++ l2))
    = List.length (twice_created sample_ToString) /\
    count_code "aaaaaa" (l1 ++ l2)
    = (count_code "aaaaaa" (twice_created sample_ToString) - 1)%nat.
Proof.
  split.
  - apply (delete_shorten_removes_one two_mappings "nobody"). reflexivity.
  - apply (delete_shorten_removes_one (twice_created sample_ToString)
             "aaaaaa").
    vm_compute. repeat constructor.
Defined.

Lemma clicks_never_negative_witness :
  map clicks (visited_twice sample_ToString) = [2; 0] /\
  Forall (fun d => 0 <= clicks d) (visited_twice sample_ToString) /\
  forall env r,
    clicks_change (map clicks (visited_twice sample_ToString))
      (map clicks (snd (app sample_ToString env r
                          (visited_twice sample_ToString)))).
Proof.
  split; [reflexivity|].
  apply (clicks_never_negative sample_ToString
           (visited_twice sample_ToString)).
  unfold visited_twice. apply reachable_run, reachable_empty.
Defined.

Lemma not_found_iff_unknown_witness :
  status (fst (delete_shorten "nobody" two_mappings)) = 404 /\
  delete_shorten "nobody" two_mappings =
    (json_response (error_json not_found_json) 404, two_mappings) /\
  ~ unknown "Ab3dE9" two_mappings.
Proof.
  destruct (not_found_iff_unknown sample_ToString two_mappings "nobody"
              (url_body (js_string "https://example.org"))
              "https://example.org")
    as (_ & _ & _ & Hdel & Hsame); [reflexivity | discriminate|].
  destruct (not_found_iff_unknown sample_ToString two_mappings "Ab3dE9"
              (url_body (js_string "https://example.org"))
              "https://example.org")
    as (_ & Hstats & _); [reflexivity | discriminate|].
  split; [apply Hdel, two_mappings_unknown|].
  split; [apply Hsame, two_mappings_unknown|].
  intros H. apply Hstats in H. discriminate H.
Defined.

Lemma generateShortCode_len_characters_witness :
  String.length (generateShortCode_len (Math_random sample_env) 0) = 0%nat /\
  String.length (generateShortCode_len (Math_random sample_env) 9) = 9%nat /\
  all_chars alphanumeric (generateShortCode_len (Math_random sample_env) 9)
  = true /\
  exists i, random_index (Math_random sample_env) 0 = js_int i /\
    0 <= i < 62 /\
    String.get 0 (generateShortCode_len (Math_random sample_env) 9)
    = String.get (Z.to_nat i) chars.
Proof.
  destruct (generateShortCode_len_characters (Math_random sample_env) 0
              sample_env_fair) as (H0 & _).
  destruct (generateShortCode_len_characters (Math_random sample_env) 9
              sample_env_fair) as (H9 & Hall & Hget).
  split; [exact H0 | split; [exact H9 | split; [exact Hall|]]].
  apply Hget. repeat constructor.
Defined.

(** The numbers 0.25806451612903225 and 0.26 both select the index 16,
    the first of them because its product with 62 rounds up to 16. *)
Lemma generateShortCode_collision_witness :
  random_index (Math_random low_env) 0 = js_int 16 /\
  generateShortCode (Math_random low_env)
  = generateShortCode (Math_random other_env) /\
  generateShortCode (Math_random low_env)
  <> generateShortCode (Math_random zero_env).
Proof.
  split; [reflexivity | split].
  - apply (generateShortCode_collision (Math_random low_env)
             (Math_random other_env) low_env_fair other_env_fair).
    intros k Hk. reflexivity.
  - intros Heq.
    apply (generateShortCode_collision (Math_random low_env)
             (Math_random zero_env) low_env_fair zero_env_fair)
      with (k := 0%nat) in Heq; [discriminate Heq | repeat constructor].
Defined.

Lemma create_then_read_witness :
  get_stats (generateShortCode (Math_random sample_env))
    (snd (post_shorten sample_env (url_body (js_string "https://example.net"))
            two_mappings))
  = (json_response
       (stats_json (generateShortCode (Math_random sample_env))
          (js_string "https://example.net") 0 (now sample_env)) 200,
     snd (post_shorten sample_env (url_body (js_string "https://example.net"))
            two_mappings)) /\
  fst (get_shorten sample_ToString (generateShortCode (Math_random sample_env))
         (snd (post_shorten sample_env
                 (url_body (js_string "https://example.net")) two_mappings)))
  = redirect_response "https://example.net" 302.
Proof.
  destruct (create_then_read sample_ToString sample_env
              (url_body (js_string "https://example.net"))
              "https://example.net" two_mappings)
    as (Hstats & _ & Hplain).
  - reflexivity.
  - discriminate.
  - intros d [<-|[<-|[]]]; vm_compute; discriminate.
  - split; [exact Hstats | apply Hplain; reflexivity].
Defined.

Lemma create_keeps_older_record_witness :
  fst (get_stats "aaaaaa"
         (snd (post_shorten zero_env
                 (url_body (js_string "https://example.net"))
                 (twice_created sample_ToString))))
  = fst (get_stats "aaaaaa" (twice_created sample_ToString)) /\
  fst (get_shorten sample_ToString "aaaaaa"
         (snd (post_shorten zero_env
                 (url_body (js_string "https://example.net"))
                 (twice_created sample_ToString))))
  = fst (get_shorten sample_ToString "aaaaaa"
           (twice_created sample_ToString)).
Proof.
  apply (create_keeps_older_record sample_ToString zero_env
           (url_body (js_string "https://example.net"))
           (twice_created sample_ToString) "aaaaaa").
  exact twice_created_known.
Defined.

Lemma update_then_read_witness :
  exists l1 m l2,
    first_match "Ab3dE9" two_mappings l1 m l2 /\
    get_stats "Ab3dE9"
      (snd (put_shorten "Ab3dE9" (url_body (js_string "https://example.org"))
              two_mappings))
    = (json_response
         (stats_json (shortCode m) (js_string "https://example.org")
            (clicks m) (createdAt m)) 200,
       snd (put_shorten "Ab3dE9" (url_body (js_string "https://example.org"))
              two_mappings)) /\
    fst (get_shorten sample_ToString "Ab3dE9"
           (snd (put_shorten "Ab3dE9"
                   (url_body (js_string "https://example.org"))
                   two_mappings)))
    = redirect_response "https://example.org" 302.
Proof.
  destruct (update_then_read sample_ToString two_mappings "Ab3dE9"
              (url_body (js_string "https://example.org"))
              "https://example.org")
    as (l1 & m & l2 & Hfm & Hstats & _ & Hplain).
  - reflexivity.
  - discriminate.
  - exact two_mappings_known.
  - exists l1, m, l2.
    split; [exact Hfm | split; [exact Hstats | apply Hplain; reflexivity]].
Defined.

Lemma put_shorten_last_wins_witness :
  put_shorten "Ab3dE9" (url_body (js_string "https://example.net"))
    (snd (put_shorten "Ab3dE9" (url_body (js_bool true)) two_mappings))
  = put_shorten "Ab3dE9" (url_body (js_string "https://example.net"))
      two_mappings.
Proof.
  apply (put_shorten_last_wins two_mappings "Ab3dE9"
           (url_body (js_bool true))
           (url_body (js_string "https://example.net"))
           "https://example.net").
  - reflexivity.
  - discriminate.
Defined.

Lemma redirects_add_up_witness :
  exists l1 m l2,
    first_match "x7Yz01" two_mappings l1 m l2 /\
    redirects sample_ToString "x7Yz01" 40 two_mappings =
      l1 ++ {| shortCode := shortCode m; url := url m;
               clicks := clicks m + Z.of_nat 40;
               createdAt := createdAt m |} :: l2 /\
    fst (get_stats "x7Yz01" (redirects sample_ToString "x7Yz01" 40 two_mappings))
    = json_response
        (stats_json (shortCode m) (url m) (clicks m + Z.of_nat 40)
           (createdAt m)) 200 /\
    fst (get_shorten sample_ToString "x7Yz01"
           (redirects sample_ToString "x7Yz01" 40 two_mappings))
    = fst (get_shorten sample_ToString "x7Yz01" two_mappings).
Proof.
  apply (redirects_add_up sample_ToString two_mappings "x7Yz01" 40).
  exists rocq_org. split; [left; reflexivity | reflexivity].
Defined.

Lemma delete_uncovers_next_witness :
  exists l1 m l2 k1 m' k2,
    first_match "aaaaaa" (twice_created sample_ToString) l1 m l2 /\
    first_match "aaaaaa" l2 k1 m' k2 /\
    snd (delete_shorten "aaaaaa" (twice_created sample_ToString))
    = l1 ++ l2 /\
    fst (get_stats "aaaaaa"
           (snd (delete_shorten "aaaaaa" (twice_created sample_ToString))))
    = json_response
        (stats_json (shortCode m') (url m') (clicks m') (createdAt m')) 200 /\
    fst (get_shorten sample_ToString "aaaaaa"
           (snd (delete_shorten "aaaaaa" (twice_created sample_ToString))))
    = redirect_answer sample_ToString (url m').
Proof.
  destruct (delete_uncovers_next sample_ToString
              (twice_created sample_ToString) "aaaaaa")
    as (l1 & m & l2 & k1 & m' & k2 & H1 & H2 & H3 & _ & H5 & H6 & _).
  - vm_compute. repeat constructor.
  - exists l1, m, l2, k1, m', k2.
    split; [exact H1 | split; [exact H2 | split; [exact H3 | split;
      [exact H5 | exact H6]]]].
Defined.

Lemma other_codes_untouched_witness :
  others "Ab3dE9"
    (snd (app sample_ToString sample_env (DELETE_shorten "Ab3dE9")
            two_mappings))
  = others "Ab3dE9" two_mappings /\
  fst (get_stats "x7Yz01"
         (snd (app sample_ToString sample_env (DELETE_shorten "Ab3dE9")
                 two_mappings)))
  = fst (get_stats "x7Yz01" two_mappings) /\
  fst (get_shorten sample_ToString "x7Yz01"
         (snd (app sample_ToString sample_env (DELETE_shorten "Ab3dE9")
                 two_mappings)))
  = fst (get_shorten sample_ToString "x7Yz01" two_mappings).
Proof.
  apply (other_codes_untouched sample_ToString sample_env
           (DELETE_shorten "Ab3dE9") "Ab3dE9" "x7Yz01" two_mappings).
  - reflexivity.
  - discriminate.
Defined.

Lemma errors_change_nothing_witness :
  snd (app sample_ToString sample_env
         (PUT_shorten "nobody" (url_body (js_string "https://example.org")))
         two_mappings) = two_mappings /\
  snd (app sample_ToString sample_env (POST_shorten (url_body js_null))
         two_mappings) = two_mappings /\
  (snd (app sample_ToString sample_env (GET_shorten "aaaaaa")
          (with_two_lines sample_ToString))
   = with_two_lines sample_ToString \/
   exists code l1 m l2,
     GET_shorten "aaaaaa" = GET_shorten code /\
     first_match code (with_two_lines sample_ToString) l1 m l2 /\
     snd (app sample_ToString sample_env (GET_shorten "aaaaaa")
            (with_two_lines sample_ToString)) =
       l1 ++ {| shortCode := shortCode m; url := url m;
                clicks := clicks m + 1; createdAt := createdAt m |} :: l2).
Proof.
  split; [|split].
  - apply (errors_change_nothing sample_ToString sample_env
             (PUT_shorten "nobody"
                (url_body (js_string "https://example.org"))) two_mappings).
    right. reflexivity.
  - apply (errors_change_nothing sample_ToString sample_env
             (POST_shorten (url_body js_null)) two_mappings).
    left. reflexivity.
  - apply (errors_change_nothing sample_ToString sample_env
             (GET_shorten "aaaaaa") (with_two_lines sample_ToString)).
    reflexivity.
Defined.

Lemma stored_urls_never_empty_witness :
  Forall (fun d => falsy (url d) = false) (visited_twice sample_ToString) /\
  Forall (fun d => url d <> js_string "" /\ url d <> js_undefined /\
                   url d <> js_null) (visited_twice sample_ToString).
Proof.
  apply (stored_urls_never_empty sample_ToString
           (visited_twice sample_ToString)).
  unfold visited_twice. apply reachable_run, reachable_empty.
Defined.

Lemma stored_codes_shaped_witness :
  Forall (fun d => code_shaped (shortCode d))
    (fairly_created sample_ToString) /\
  get_shorten sample_ToString "abc" (fairly_created sample_ToString)
  = (text_response not_found_text 404, fairly_created sample_ToString) /\
  delete_shorten "abc-12" (fairly_created sample_ToString)
  = (json_response (error_json not_found_json) 404,
     fairly_created sample_ToString).
Proof.
  destruct (stored_codes_shaped sample_ToString
              (fairly_created sample_ToString) fairly_created_reachable)
    as [Hall Hnot].
  split; [exact Hall | split].
  - apply (Hnot "abc" (url_body (js_string "https://example.org"))
             "https://example.org").
    + intros [Hlen _]. discriminate Hlen.
    + reflexivity.
    + discriminate.
  - apply (Hnot "abc-12" (url_body (js_string "https://example.org"))
             "https://example.org").
    + intros [_ Hchars]. discriminate Hchars.
    + reflexivity.
    + discriminate.
Defined.

Lemma identity_immutable_witness :
  map identity
    (snd (app sample_ToString sample_env
            (POST_shorten (url_body (js_string "https://example.net")))
            two_mappings))
  = map identity two_mappings
    ++ [(generateShortCode (Math_random sample_env), now sample_env)] /\
  map identity
    (snd (app sample_ToString sample_env
            (PUT_shorten "Ab3dE9" (url_body (js_string "https://example.net")))
            two_mappings))
  = map identity two_mappings.
Proof.
  split.
  - apply (proj1 (proj2 (identity_immutable sample_ToString sample_env
                           (POST_shorten
                              (url_body (js_string "https://example.net")))
                           two_mappings))
             (url_body (js_string "https://example.net"))
             (js_string "https://example.net")); reflexivity.
  - apply (proj2 (proj2 (identity_immutable sample_ToString sample_env
                           (PUT_shorten "Ab3dE9"
                              (url_body (js_string "https://example.net")))
                           two_mappings))).
    + discriminate.
    + intros code H. discriminate H.
Defined.
